(** * beyond_compare_script_interface: the script runner and its environment

    A shallow embedding of [BeyondCompareScript]
    (beyond_compare_script_interface/beyond_compare_script.py) and of
    [run_command] (beyond_compare_script_interface/utilities/utilities.py).

    The runner is a Python object with three mutable slots; its methods read
    and write the file system, the logger, the console and, for [run_script],
    a child process.  Methods are modelled as computations in a state and
    exception monad: a raised exception keeps every state change made before
    it, as in Python.

    Conventions of the model.
    - A [str] is a Rocq [string]; one [ascii] stands for one code point, so
      the alphabet is U+0000 to U+00FF.  On this alphabet the only decimal
      digits are '0' to '9'.
    - A [pathlib.Path] is the list of its components below the root; the
      empty list is the root directory.  [str(path)] joins with "/".
      A component is taken as the name of one directory entry: [pathlib]
      keeps ".." in a path and leaves it to the operating system, and a
      name with a NUL makes every file call raise [ValueError]; neither is
      modelled, and [portable] says that a path has no such component.
    - A file system holds regular files and directories, nothing else (no
      link, FIFO or device), and a call fails only for what it finds at
      the paths it walks: the operating system does not refuse a creation
      for want of a permission or of room.
    - A text file holds the [str] that was written to it (the codec and
      newline translation of text-mode I/O are not modelled).
    - Bytes read from a pipe are [list byte]; [bytes.decode()] is strict
      UTF-8.  A decoded text is kept as its (valid) UTF-8 encoding.
    - The process is allowed every file operation it attempts: permission
      bits are data returned by [stat], not access control. *)

From Stdlib Require Import ZArith NArith String Ascii List Lia.
From Stdlib.Strings Require Import Byte.
From stdpp Require Import base option list strings gmap.

Local Open Scope string_scope.

(** ** Exceptions *)

(** The builtin exception classes that the runner or the modelled library
    calls can raise.  [Unmodelled] is not a Python class: the example value
    universe [pyvalue] answers with it where it does not describe Python. *)
Inductive exn_class :=
  | Exception
  | OSError
  | FileNotFoundError
  | FileExistsError
  | NotADirectoryError
  | IsADirectoryError
  | ValueError
  | UnicodeDecodeError
  | LookupError
  | KeyError
  | IndexError
  | TypeError
  | RuntimeError
  | Unmodelled.

Global Instance exn_class_eq_dec : EqDecision exn_class.
Proof. solve_decision. Defined.

(** [EnvironmentError] has been an alias of [OSError] since Python 3.3. *)
Definition EnvironmentError : exn_class := OSError.

(** The direct base class. *)
Definition exn_base (c : exn_class) : option exn_class :=
  match c with
  | Exception => None
  | OSError | ValueError | LookupError | TypeError | RuntimeError
  | Unmodelled => Some Exception
  | FileNotFoundError | FileExistsError | NotADirectoryError
  | IsADirectoryError => Some OSError
  | UnicodeDecodeError => Some ValueError
  | KeyError | IndexError => Some LookupError
  end.

Fixpoint issubclass_fuel (n : nat) (c d : exn_class) : bool :=
  if decide (c = d) then true
  else match n with
       | O => false
       | S n' => match exn_base c with
                 | Some b => issubclass_fuel n' b d
                 | None => false
                 end
       end.

(** The class hierarchy above has depth three. *)
Definition issubclass (c d : exn_class) : bool := issubclass_fuel 3 c d.

(** The pieces an f-string message is assembled from.  [Text] is literal or
    already rendered text, [ListRepr] the [repr] of a list of [str],
    [Decoded] a text obtained from [bytes.decode()]. *)
Inductive fragment :=
  | Text (s : string)
  | ListRepr (l : list string)
  | Decoded (b : list byte).

Record exn := Exn { exn_cls : exn_class; exn_args : list fragment }.

Definition isinstance (e : exn) (c : exn_class) : bool :=
  issubclass (exn_cls e) c.

(** ** Results and the state-and-exception monad *)

Inductive result (A : Type) :=
  | Ok (a : A)
  | Raise (e : exn).
Arguments Ok {A} a.
Arguments Raise {A} e.

Global Instance result_ret : MRet result := fun _ a => Ok a.
Global Instance result_bind : MBind result := fun _ _ f r =>
  match r with
  | Ok a => f a
  | Raise e => Raise e
  end.

(** A computation over a state [S]: the final state is returned on both
    outcomes. *)
Definition M (S A : Type) : Type := S → result A * S.

Global Instance M_ret {S} : MRet (M S) := fun _ a s => (Ok a, s).
Global Instance M_bind {S} : MBind (M S) := fun _ _ f m s =>
  match m s with
  | (Ok a, s') => f a s'
  | (Raise e, s') => (Raise e, s')
  end.

Definition raise {S A} (e : exn) : M S A := fun s => (Raise e, s).
Definition get {S} : M S S := fun s => (Ok s, s).
Definition modify {S} (f : S → S) : M S unit := fun s => (Ok tt, f s).

(** A pure result enters the monad without touching the state. *)
Definition lift_result {S A} (r : result A) : M S A := fun s => (r, s).

(** [try: body except cls as e: handler] *)
Definition try_except {S} (body : M S unit) (cls : exn_class)
    (handler : exn → M S unit) : M S unit := fun s =>
  match body s with
  | (Ok tt, s') => (Ok tt, s')
  | (Raise e, s') =>
      if isinstance e cls then handler e s' else (Raise e, s')
  end.

(** ** Paths *)

Abbreviation path := (list string).

(** [p / name] for a single component [name]. *)
Definition joinpath (p : path) (name : string) : path := p ++ [name].

(** [p.parent]; the root is its own parent. *)
Definition parent (p : path) : path := removelast p.

Fixpoint path_str_aux (p : path) : string :=
  match p with
  | [] => ""
  | c :: p' => "/" ++ c ++ path_str_aux p'
  end.

(** [str(p)] *)
Definition path_str (p : path) : string :=
  match p with
  | [] => "/"
  | _ => path_str_aux p
  end.

(** [f'{x}'] for an [Optional[Path]] slot. *)
Definition fstr_opt_path (o : option path) : string :=
  match o with
  | None => "None"
  | Some p => path_str p
  end.

(** A character of a name that every file-system encoding takes:
    seven-bit, not NUL, not the separator. *)
Definition portable_char (a : ascii) : bool :=
  let n := N_of_ascii a in
  (0 <? n)%N && (n <? 128)%N && negb (n =? 47)%N.

(** A component that names one directory entry: not empty, not "." (which
    [pathlib] drops) and not ".." (which it keeps, for the operating system
    to resolve). *)
Definition portable_name (c : string) : bool :=
  negb (String.eqb c "") && negb (String.eqb c ".") &&
  negb (String.eqb c "..") &&
  forallb portable_char (list_ascii_of_string c).

Definition portable (p : path) : bool := forallb portable_name p.

Definition portable_slot (o : option path) : bool :=
  match o with
  | Some p => portable p
  | None => true
  end.

(** ** File system *)

Inductive node :=
  | File (mode : Z) (content : string)
  | Dir (mode : Z).

Record filesystem := Filesystem {
  nodes : gmap (list string) node;
  umask : Z
}.

Definition S_IFDIR : Z := 0x4000. (* 0o040000 *)
Definition S_IFREG : Z := 0x8000. (* 0o100000 *)

(** The root directory always exists. *)
Definition fs_lookup (fs : filesystem) (p : path) : option node :=
  match p with
  | [] => Some (Dir 0x1ed) (* 0o755 *)
  | _ => nodes fs !! p
  end.

Definition fs_insert (p : path) (n : node) (fs : filesystem) : filesystem :=
  {| nodes := <[p := n]> (nodes fs); umask := umask fs |}.

Definition fs_delete (p : path) (fs : filesystem) : filesystem :=
  {| nodes := delete p (nodes fs); umask := umask fs |}.

(** [p.exists()] *)
Definition exists_ (fs : filesystem) (p : path) : bool :=
  match fs_lookup fs p with
  | Some _ => true
  | None => false
  end.

(** [p.is_dir()] *)
Definition is_dir (fs : filesystem) (p : path) : bool :=
  match fs_lookup fs p with
  | Some (Dir _) => true
  | _ => false
  end.

Definition st_mode_of (n : node) : Z :=
  match n with
  | File m _ => Z.lor S_IFREG m
  | Dir m => Z.lor S_IFDIR m
  end.

(** [p.stat().st_mode] *)
Definition stat_st_mode (fs : filesystem) (p : path) : result Z :=
  match fs_lookup fs p with
  | Some n => Ok (st_mode_of n)
  | None => Raise (Exn FileNotFoundError [])
  end.

(** The permission bits of a node created with [mode]. *)
Definition apply_umask (fs : filesystem) (mode : Z) : Z :=
  Z.ldiff mode (umask fs).
Arguments apply_umask : simpl never.

(** [p.mkdir(parents=True, exist_ok=True)], walking from the root: a missing
    component is created with mode [0o777 & ~umask], a directory is stepped
    into, and a regular file stops the walk, with [FileExistsError] when it
    is the target itself and [NotADirectoryError] when it is above it.
    These are the failures of [mkdir] in the file systems described at the
    head of the file; what the runner does with an error of [mkdir] does
    not depend on its class. *)
Fixpoint mkdir_walk (base : path) (todo : list string) (fs : filesystem)
    : result filesystem :=
  match todo with
  | [] => Ok fs
  | c :: rest =>
      let p := joinpath base c in
      match fs_lookup fs p with
      | None => mkdir_walk p rest (fs_insert p (Dir (apply_umask fs 0x1ff)) fs)
      | Some (Dir _) => mkdir_walk p rest fs
      | Some (File _ _) =>
          Raise (Exn (match rest with
                      | [] => FileExistsError
                      | _ => NotADirectoryError
                      end) [])
      end
  end.

Definition mkdir_parents_exist_ok (p : path) (fs : filesystem)
    : result filesystem :=
  mkdir_walk [] p fs.

(** [open(p, "w")]: the parent must be a directory and [p] must not be one;
    the file is created with mode [0o666 & ~umask] or truncated. *)
Definition open_w (p : path) (fs : filesystem) : result filesystem :=
  match fs_lookup fs (parent p) with
  | None => Raise (Exn FileNotFoundError [])
  | Some (File _ _) => Raise (Exn NotADirectoryError [])
  | Some (Dir _) =>
      match fs_lookup fs p with
      | Some (Dir _) => Raise (Exn IsADirectoryError [])
      | Some (File m _) => Ok (fs_insert p (File m "") fs)
      | None => Ok (fs_insert p (File (apply_umask fs 0x1b6) "") fs)
      end
  end.

(** Writing [data] to the file opened at [p] and closing it. *)
Definition write_close (p : path) (data : string) (fs : filesystem)
    : filesystem :=
  match fs_lookup fs p with
  | Some (File m old) => fs_insert p (File m (old ++ data)) fs
  | _ => fs
  end.

(** [p.unlink()] (Linux: a directory gives [IsADirectoryError]). *)
Definition unlink (p : path) (fs : filesystem) : result filesystem :=
  match fs_lookup fs p with
  | None => Raise (Exn FileNotFoundError [])
  | Some (Dir _) => Raise (Exn IsADirectoryError [])
  | Some (File _ _) => Ok (fs_delete p fs)
  end.

(** ** Clock *)

(** The fields of a [datetime] that the runner formats. *)
Record datetime := Datetime {
  year : N; month : N; day : N; hour : N; minute : N; second : N
}.

(** The ranges every [datetime] object satisfies (MINYEAR = 1,
    MAXYEAR = 9999). *)
Definition datetime_valid (d : datetime) : Prop :=
  (1 <= year d <= 9999)%N ∧ (1 <= month d <= 12)%N ∧ (1 <= day d <= 31)%N ∧
  (hour d < 24)%N ∧ (minute d < 60)%N ∧ (second d < 60)%N.

Definition digit (n : N) : ascii := ascii_of_N (48 + n mod 10).

(** Zero-padded decimal of width two and four. *)
Definition pad2 (n : N) : string :=
  String (digit (n / 10)) (String (digit n) "").

Definition pad4 (n : N) : string :=
  String (digit (n / 1000)) (String (digit (n / 100)) (pad2 n)).

(** [d.strftime("%Y%m%d-%H%M%S")], with the documented zero-padded
    four-digit [%Y]. *)
Definition strftime_Ymd_HMS (d : datetime) : string :=
  pad4 (year d) ++ pad2 (month d) ++ pad2 (day d) ++ "-" ++
  pad2 (hour d) ++ pad2 (minute d) ++ pad2 (second d).

Definition is_digit (c : ascii) : bool :=
  (48 <=? N_of_ascii c)%N && (N_of_ascii c <=? 57)%N.


(** ** Logging and console *)

Inductive log_level := DEBUG | INFO | ERROR.

Record log_record := LogRecord { level : log_level; msg : list fragment }.

(** What lies outside the runner object: the file system, the records
    handed to the module loggers (oldest first) and the texts handed to
    [print] (oldest first). *)
Record world := World {
  fs : filesystem;
  log : list log_record;
  console : list (list byte)
}.

Definition logger (lvl : log_level) (m : list fragment) : M world unit :=
  modify (fun w => {| fs := fs w; log := log w ++ [LogRecord lvl m];
                      console := console w |}).

Definition print (text : list byte) : M world unit :=
  modify (fun w => {| fs := fs w; log := log w;
                      console := console w ++ [text] |}).

(** A file-system call: the file system changes only when the call
    succeeds. *)
Definition fs_op (f : filesystem → result filesystem) : M world unit :=
  fun w =>
    match f (fs w) with
    | Ok fs' => (Ok tt, {| fs := fs'; log := log w; console := console w |})
    | Raise e => (Raise e, w)
    end.

Definition fs_read {A} (f : filesystem → A) : M world A :=
  fun w => (Ok (f (fs w)), w).

(** ** The runner object *)

Record BeyondCompareScript := {
  executable_path : option path;
  script_data : string;
  data_directory : path;
  subprocess_command : option (list string);
  current_run_directory : option path;
  script_path : option path
}.

Definition set_subprocess_command (v : option (list string))
    (o : BeyondCompareScript) : BeyondCompareScript :=
  {| executable_path := executable_path o; script_data := script_data o;
     data_directory := data_directory o; subprocess_command := v;
     current_run_directory := current_run_directory o;
     script_path := script_path o |}.

Definition set_current_run_directory (v : option path)
    (o : BeyondCompareScript) : BeyondCompareScript :=
  {| executable_path := executable_path o; script_data := script_data o;
     data_directory := data_directory o;
     subprocess_command := subprocess_command o;
     current_run_directory := v; script_path := script_path o |}.

Definition set_script_path (v : option path)
    (o : BeyondCompareScript) : BeyondCompareScript :=
  {| executable_path := executable_path o; script_data := script_data o;
     data_directory := data_directory o;
     subprocess_command := subprocess_command o;
     current_run_directory := current_run_directory o; script_path := v |}.

(** The state a method runs in. *)
Record state := State { self : BeyondCompareScript; env : world }.

Definition in_env {A} (m : M world A) : M state A := fun s =>
  match m (env s) with
  | (r, w') => (r, {| self := self s; env := w' |})
  end.

Definition get_self : M state BeyondCompareScript :=
  fun s => (Ok (self s), s).

Definition set_self (f : BeyondCompareScript → BeyondCompareScript)
    : M state unit :=
  modify (fun s => {| self := f (self s); env := env s |}).

Definition S_IXUGO : Z := 0x49. (* 0o111 *)

(** [BeyondCompareScript.__init__]: the data directory is created before
    the executable is checked; no object is returned when it raises. *)
Definition __init__ (executable_path : option path) (script_data : string)
    (data_directory : path) : M world BeyondCompareScript :=
  fs_op (mkdir_parents_exist_ok data_directory);;
  logger DEBUG [Text "Ensuring executable exists and is an executable file."];;
  let not_found :=
    Exn EnvironmentError
      [Text ("Beyond Compare executable not found at `" ++
             fstr_opt_path executable_path ++ "`.")] in
  match executable_path with
  | None => raise not_found
  | Some exe =>
      fs' ← fs_read id;
      st_mode ← lift_result (stat_st_mode fs' exe);
      if Z.eqb (Z.land st_mode S_IXUGO) 0 then raise not_found
      else mret {| executable_path := executable_path;
                   script_data := script_data;
                   data_directory := data_directory;
                   subprocess_command := None;
                   current_run_directory := None;
                   script_path := None |}
  end.

(** [prepare_current_run_directory]; [now] is what [datetime.now()]
    returns during the call. *)
Definition prepare_current_run_directory (now : datetime) : M state path :=
  o ← get_self;
  let run_dir := joinpath (data_directory o) (strftime_Ymd_HMS now) in
  set_self (set_current_run_directory (Some run_dir));;
  in_env (logger INFO
    [Text ("Creating current run directory at " ++ path_str run_dir)]);;
  in_env (fs_op (mkdir_parents_exist_ok run_dir));;
  mret run_dir.

(** [prepare_subprocess_command] *)
Definition prepare_subprocess_command : M state (list string) :=
  o ← get_self;
  fs' ← in_env (fs_read id);
  match script_path o with
  | Some p =>
      if negb (exists_ fs' p)
      then raise (Exn FileNotFoundError [Text "Script file not found."])
      else
        in_env (logger INFO
          [Text ("Preparing subprocess command for script at " ++
                 path_str p)]);;
        let command :=
          [fstr_opt_path (executable_path o); "@" ++ path_str p; "/silent"] in
        set_self (set_subprocess_command (Some command));;
        mret command
  | None => raise (Exn FileNotFoundError [Text "Script file not found."])
  end.

(** [remove_script]: a [Path] is always truthy, so the first test is
    [script_path is not None]. *)
Definition remove_script : M state unit :=
  o ← get_self;
  fs' ← in_env (fs_read id);
  match script_path o with
  | Some p =>
      if exists_ fs' p then
        in_env (logger INFO
          [Text ("Removing script file at " ++ path_str p)]);;
        in_env (fs_op (unlink p))
      else raise (Exn FileNotFoundError [Text "Script file not found."])
  | None => raise (Exn FileNotFoundError [Text "Script file not found."])
  end.

(** ** [str.format]

    [self.script_data.format( **kwargs)] follows CPython's
    Objects/stringlib/unicode_format.h: [MarkupIterator_next] and
    [parse_field] split the template into literal text and replacement
    fields, [get_field_object] finds a field's object, [output_markup]
    converts it, expands its format spec and renders it. *)

Definition value_error (m : string) : exn := Exn ValueError [Text m].

Definition snoc (s : string) (c : ascii) : string := s ++ String c "".

(** The stream [MarkupIterator_next] yields.  The iterator is lazy: a
    syntax error is met only after everything before it has been rendered,
    so the error is the tail of the stream. *)
Inductive markup :=
  | MEnd
  | MError (e : exn)
  | MChar (c : ascii) (rest : markup)
  | MField (field_name : string) (conversion : option ascii)
           (format_spec : string) (format_spec_needs_expanding : bool)
           (rest : markup).

(** [MarkupIterator] scans literal text, with "{{" and "}}" standing for one
    brace.  [parse_field] reads a field name up to "}", ":" or "!";
    [skip_bracket] is its inner loop after "[", in which no character is
    special; [parse_spec] reads a format spec up to the matching "}",
    counting nested braces. *)
Fixpoint MarkupIterator (s : string) : markup :=
  match s with
  | "" => MEnd
  | String c s' =>
      if Ascii.eqb c "{" then
        match s' with
        | "" => MError (value_error "Single '{' encountered in format string")
        | String c2 s'' =>
            if Ascii.eqb c2 "{" then MChar "{" (MarkupIterator s'')
            else parse_field "" s'
        end
      else if Ascii.eqb c "}" then
        match s' with
        | "" => MError (value_error "Single '}' encountered in format string")
        | String c2 s'' =>
            if Ascii.eqb c2 "}" then MChar "}" (MarkupIterator s'')
            else MError (value_error "Single '}' encountered in format string")
        end
      else MChar c (MarkupIterator s')
  end
with parse_field (name : string) (s : string) : markup :=
  match s with
  | "" => MError (value_error "expected '}' before end of string")
  | String c s' =>
      if Ascii.eqb c "{" then
        MError (value_error "unexpected '{' in field name")
      else if Ascii.eqb c "[" then skip_bracket (snoc name c) s'
      else if Ascii.eqb c "}" then MField name None "" false (MarkupIterator s')
      else if Ascii.eqb c ":" then parse_spec name None 0 "" false s'
      else if Ascii.eqb c "!" then
        match s' with
        | "" => MError (value_error
                  "end of string while looking for conversion specifier")
        | String conv s'' =>
            match s'' with
            | "" => MError (value_error "unmatched '{' in format spec")
            | String c3 s''' =>
                if Ascii.eqb c3 "}" then
                  MField name (Some conv) "" false (MarkupIterator s''')
                else if Ascii.eqb c3 ":" then
                  parse_spec name (Some conv) 0 "" false s'''
                else MError (value_error
                       "expected ':' after conversion specifier")
            end
        end
      else parse_field (snoc name c) s'
  end
with skip_bracket (name : string) (s : string) : markup :=
  match s with
  | "" => MError (value_error "expected '}' before end of string")
  | String c s' =>
      if Ascii.eqb c "]" then parse_field (snoc name c) s'
      else skip_bracket (snoc name c) s'
  end
with parse_spec (name : string) (conv : option ascii) (open : nat)
    (spec : string) (expand : bool) (s : string) : markup :=
  match s with
  | "" => MError (value_error "unmatched '{' in format spec")
  | String c s' =>
      if Ascii.eqb c "{" then
        parse_spec name conv (S open) (snoc spec c) true s'
      else if Ascii.eqb c "}" then
        match open with
        | O => MField name conv spec expand (MarkupIterator s')
        | S open' => parse_spec name conv open' (snoc spec c) expand s'
        end
      else parse_spec name conv open (snoc spec c) expand s'
  end.

(** [field_name_split]: the part before the first "." or "[", and the
    accessor chain that follows. *)
Fixpoint field_name_split (s : string) : string * string :=
  match s with
  | "" => ("", "")
  | String c s' =>
      if Ascii.eqb c "." || Ascii.eqb c "[" then ("", s)
      else let (first, rest) := field_name_split s' in (String c first, rest)
  end.

(** 64-bit build. *)
Definition PY_SSIZE_T_MAX : N := 2 ^ 63 - 1.

Fixpoint get_integer_from (accumulator : N) (s : string)
    : result (option N) :=
  match s with
  | "" => Ok (Some accumulator)
  | String c s' =>
      if is_digit c then
        let digitval := (N_of_ascii c - 48)%N in
        if ((PY_SSIZE_T_MAX - digitval) / 10 <? accumulator)%N
        then Raise (value_error "Too many decimal digits in format string")
        else get_integer_from (accumulator * 10 + digitval)%N s'
      else Ok None
  end.

(** [get_integer]: [Ok None] is the C function's -1 without an error. *)
Definition get_integer (s : string) : result (option N) :=
  match s with
  | "" => Ok None
  | _ => get_integer_from 0 s
  end.

(** The operations of the Python object protocol that rendering a field can
    reach, for the objects of a universe [V]: the accessor chain of a field
    name ([getattr] and [__getitem__], applied by [FieldNameIterator]), the
    conversions [!r], [!s] and [!a], and [format(v, spec)]. *)
Class PyObject (V : Type) := {
  py_access : V → string → result V;
  py_repr : V → result V;
  py_str : V → result V;
  py_ascii : V → result V;
  py_format : V → string → result string
}.

Section format.
Context {V : Type} `{!PyObject V}.

(** The keyword arguments, looked up through [get]. *)
Variable get : string → option V.

(** [get_field_object], called without positional arguments: an empty or
    numeric first part indexes the empty tuple. *)
Definition get_field_object (field_name : string) : result V :=
  let (first, rest) := field_name_split field_name in
  index ← get_integer first;
  let using_numeric_index :=
    match first, index with
    | "", _ | _, Some _ => true
    | _, None => false
    end in
  if using_numeric_index then Raise (Exn IndexError [])
  else
    match get first with
    | None => Raise (Exn KeyError [Text first])
    | Some obj =>
        match rest with
        | "" => Ok obj
        | _ => py_access obj rest
        end
    end.

Definition do_conversion (obj : V) (conversion : ascii) : result V :=
  if Ascii.eqb conversion "r" then py_repr obj
  else if Ascii.eqb conversion "s" then py_str obj
  else if Ascii.eqb conversion "a" then py_ascii obj
  else Raise (value_error "Unknown conversion specifier").

(** [output_markup]; [expand] is [build_string] one level down. *)
Definition output_markup (expand : string → result string)
    (field_name : string) (conversion : option ascii)
    (format_spec : string) (needs_expanding : bool) : result string :=
  fieldobj ← get_field_object field_name;
  fieldobj ← match conversion with
             | None => Ok fieldobj
             | Some c => do_conversion fieldobj c
             end;
  spec ← (if needs_expanding then expand format_spec else Ok format_spec);
  py_format fieldobj spec.

(** [do_markup] *)
Fixpoint do_markup (expand : string → result string) (m : markup)
    : result string :=
  match m with
  | MEnd => Ok ""
  | MError e => Raise e
  | MChar c rest =>
      tail ← do_markup expand rest;
      Ok (String c tail)
  | MField name conv spec needs_expanding rest =>
      field ← output_markup expand name conv spec needs_expanding;
      tail ← do_markup expand rest;
      Ok (field ++ tail)
  end.

(** [build_string] *)
Fixpoint build_string (recursion_depth : nat) (input : string)
    : result string :=
  match recursion_depth with
  | O => Raise (value_error "Max string recursion exceeded")
  | S depth => do_markup (build_string depth) (MarkupIterator input)
  end.

(** [do_string_format] *)
Definition format_with (template : string) : result string :=
  build_string 2 template.
End format.

(** [template.format( **kwargs)] *)
Definition format {V} `{!PyObject V} (template : string)
    (kwargs : gmap string V) : result string :=
  format_with (fun k => kwargs !! k) template.

(** The keyword a field name starts with, if it starts with one. *)
Definition keyword_of (field_name : string) : option string :=
  let (first, _) := field_name_split field_name in
  match get_integer first with
  | Ok None => match first with "" => None | _ => Some first end
  | _ => None
  end.

Fixpoint markup_keywords (nested : string → list string) (m : markup)
    : list string :=
  match m with
  | MEnd | MError _ => []
  | MChar _ rest => markup_keywords nested rest
  | MField name _ spec needs_expanding rest =>
      match keyword_of name with Some k => [k] | None => [] end ++
      (if needs_expanding then nested spec else []) ++
      markup_keywords nested rest
  end.

Fixpoint keywords_depth (recursion_depth : nat) (input : string)
    : list string :=
  match recursion_depth with
  | O => []
  | S depth => markup_keywords (keywords_depth depth) (MarkupIterator input)
  end.

(** The placeholder names a template refers to: the keywords of its
    replacement fields, those nested in format specs included. *)
Definition placeholder_names (template : string) : list string :=
  keywords_depth 2 template.

(** ** An example universe of values

    The values the callers pass: [str] and [Path] objects.  For both,
    [format(v, "")] is [str(v)] and [!s] gives [str(v)]; a [Path] rejects a
    non-empty format spec with [TypeError].  The rest of what Python does
    with these objects (their attributes and items, [repr], [ascii], the
    format-spec language of [str]) is not described here and is answered by
    [Unmodelled]; no example below reaches it. *)
Inductive pyvalue :=
  | PyStr (s : string)
  | PyPath (p : path).

Definition str_of (v : pyvalue) : string :=
  match v with
  | PyStr s => s
  | PyPath p => path_str p
  end.

Definition unmodelled {A} : result A := Raise (Exn Unmodelled []).

Global Instance pyvalue_object : PyObject pyvalue := {|
  py_access := fun _ _ => unmodelled;
  py_repr := fun _ => unmodelled;
  py_str := fun v => Ok (PyStr (str_of v));
  py_ascii := fun _ => unmodelled;
  py_format := fun v spec =>
    match spec, v with
    | "", _ => Ok (str_of v)
    | _, PyPath _ => Raise (Exn TypeError [])
    | _, PyStr _ => unmodelled
    end
|}.

(** ** Writing the script *)

Definition SCRIPT_FILE_NAME : string := "beyond_compare_script.txt".

Definition set_fs (f : filesystem → filesystem) : M world unit :=
  modify (fun w => {| fs := f (fs w); log := log w; console := console w |}).

(** [write_new_script]: the path slot is assigned and the file opened (so
    created or truncated) before the template is formatted; the run
    directory slot is cleared only after the [async with] block has ended
    normally. *)
Definition write_new_script {V} `{!PyObject V} (kwargs : gmap string V)
    : M state unit :=
  o ← get_self;
  match current_run_directory o with
  | None =>
      raise (Exn ValueError
               [Text "Current run directory not set. Set it up first."])
  | Some run_dir =>
      in_env (logger INFO
        [Text ("Writing new script file to " ++ path_str run_dir)]);;
      let p := joinpath run_dir SCRIPT_FILE_NAME in
      set_self (set_script_path (Some p));;
      in_env (fs_op (open_w p));;
      data ← lift_result (format (script_data o) kwargs);
      in_env (set_fs (write_close p data));;
      set_self (set_current_run_directory None)
  end.

(** ** Running the tool *)

Definition in_range (lo hi : N) (b : byte) : bool :=
  (lo <=? Byte.to_N b)%N && (Byte.to_N b <=? hi)%N.

(** Well-formed UTF-8 (Unicode, table 3-7): no overlong forms, no
    surrogates, nothing above U+10FFFF. *)
Fixpoint utf8_valid (bs : list byte) : bool :=
  match bs with
  | [] => true
  | b1 :: r1 =>
      if in_range 0x00 0x7f b1 then utf8_valid r1
      else if in_range 0xc2 0xdf b1 then
        match r1 with
        | b2 :: r2 => in_range 0x80 0xbf b2 && utf8_valid r2
        | _ => false
        end
      else if in_range 0xe0 0xef b1 then
        match r1 with
        | b2 :: b3 :: r3 =>
            (if in_range 0xe0 0xe0 b1 then in_range 0xa0 0xbf b2
             else if in_range 0xed 0xed b1 then in_range 0x80 0x9f b2
             else in_range 0x80 0xbf b2) &&
            in_range 0x80 0xbf b3 && utf8_valid r3
        | _ => false
        end
      else if in_range 0xf0 0xf4 b1 then
        match r1 with
        | b2 :: b3 :: b4 :: r4 =>
            (if in_range 0xf0 0xf0 b1 then in_range 0x90 0xbf b2
             else if in_range 0xf4 0xf4 b1 then in_range 0x80 0x8f b2
             else in_range 0x80 0xbf b2) &&
            in_range 0x80 0xbf b3 && in_range 0x80 0xbf b4 && utf8_valid r4
        | _ => false
        end
      else false
  end.

(** [b.decode()]: encoding "utf-8", errors "strict". *)
Definition decode (b : list byte) : result (list byte) :=
  if utf8_valid b then Ok b else Raise (Exn UnicodeDecodeError []).

(** What [asyncio.create_subprocess_exec] followed by
    [process.communicate()] comes to: the child could not be started, or it
    ran to its end, leaving an exit status, the bytes of its two pipes and
    the file system as it left it. *)
Inductive exec_outcome :=
  | SpawnFailed (e : exn)
  | Exited (returncode : Z) (stdout stderr : list byte) (fs' : filesystem).

Definition NEWLINE : string := String (ascii_of_N 10) "".

Section run.
(** The behaviour of the operating system and of the external tool. *)
Variable os_exec : list string → filesystem → exec_outcome.

(** [run_command] *)
Definition run_command (command : list string) (print_output : bool)
    : M world unit :=
  fs0 ← fs_read id;
  match os_exec command fs0 with
  | SpawnFailed e => raise e
  | Exited returncode stdout stderr fs' =>
      set_fs (fun _ => fs');;
      if negb (Z.eqb returncode 0) then
        err ← lift_result (decode stderr);
        raise (Exn RuntimeError
                 [Text "Command failed: "; ListRepr command; Text NEWLINE;
                  Decoded err])
      else if print_output then
        out ← lift_result (decode stdout);
        print out;;
        err ← lift_result (decode stderr);
        print err
      else mret tt
  end.

(** [run_script]; [str(e)] of an exception with one argument is that
    argument. *)
Definition run_script (print_output : bool) : M state unit :=
  prepare_subprocess_command;;
  o ← get_self;
  in_env (logger INFO
    [Text ("Running script at " ++ fstr_opt_path (script_path o))]);;
  try_except
    (match subprocess_command o with
     | Some command => in_env (run_command command print_output)
     | None => raise (Exn TypeError [])
     end)
    RuntimeError
    (fun e =>
       o' ← get_self;
       in_env (logger ERROR
         (Text ("Error running script at " ++
                fstr_opt_path (script_path o') ++ ": ") :: exn_args e))).
End run.

(** * Vocabulary of the properties *)

(** ** The errors the runner raises itself *)

Definition script_not_found : exn :=
  Exn FileNotFoundError [Text "Script file not found."].

Definition run_directory_not_set : exn :=
  Exn ValueError [Text "Current run directory not set. Set it up first."].

(** ** Reading a timestamp back *)

Definition digit_value (c : ascii) : N := N_of_ascii c - 48.

Definition decimal_value (s : string) : N :=
  fold_left (fun acc c => (acc * 10 + digit_value c)%N)
            (list_ascii_of_string s) 0%N.

(** The timestamp a name of the shape YYYYMMDD-HHMMSS spells. *)
Definition read_timestamp (s : string) : datetime :=
  {| year := decimal_value (substring 0 4 s);
     month := decimal_value (substring 4 2 s);
     day := decimal_value (substring 6 2 s);
     hour := decimal_value (substring 9 2 s);
     minute := decimal_value (substring 11 2 s);
     second := decimal_value (substring 13 2 s) |}.

(** ** The states of a call to [write_new_script] *)

Definition writing_record (run_dir : path) : log_record :=
  LogRecord INFO [Text ("Writing new script file to " ++ path_str run_dir)].

(** The state [write_new_script] is in once it has logged and assigned the
    script path, over the file system [f]. *)
Definition writing (st : state) (run_dir : path) (f : filesystem) : state :=
  {| self := set_script_path (Some (joinpath run_dir SCRIPT_FILE_NAME))
               (self st);
     env := {| fs := f; log := log (env st) ++ [writing_record run_dir];
               console := console (env st) |} |}.

Definition written_state (st : state) (run_dir : path) (f : filesystem)
    : state :=
  {| self := set_current_run_directory None (self (writing st run_dir f));
     env := env (writing st run_dir f) |}.

(** ** The invocation and the failure record *)

Definition invocation (o : BeyondCompareScript) (p : path) : list string :=
  [fstr_opt_path (executable_path o); "@" ++ path_str p; "/silent"].

Definition failure_record (p : path) (command : list string)
    (stderr_text : list byte) : log_record :=
  LogRecord ERROR
    [Text ("Error running script at " ++ path_str p ++ ": ");
     Text "Command failed: "; ListRepr command; Text NEWLINE;
     Decoded stderr_text].

(** ** Templates of literal text and plain placeholders *)

(** A template as a sequence of literal characters and placeholders.  In
    the template's text a literal brace is written twice. *)
Inductive piece :=
  | Lit (c : ascii)
  | Placeholder (name : string).

Definition is_brace (c : ascii) : bool :=
  Ascii.eqb c "{" || Ascii.eqb c "}".

Definition piece_text (p : piece) : string :=
  match p with
  | Lit c => if is_brace c then String c (String c "") else String c ""
  | Placeholder name => "{" ++ name ++ "}"
  end.

Fixpoint template_text (t : list piece) : string :=
  match t with
  | [] => ""
  | p :: t' => piece_text p ++ template_text t'
  end.

(** Not one of the characters that end or structure a field name. *)
Definition ordinary (c : ascii) : bool :=
  negb (Ascii.eqb c "{") && negb (Ascii.eqb c "}") &&
  negb (Ascii.eqb c "[") && negb (Ascii.eqb c ":") &&
  negb (Ascii.eqb c "!") && negb (Ascii.eqb c ".").

(** A plain placeholder name: not empty, not starting with a digit, made
    of ordinary characters. *)
Definition plain_name (name : string) : bool :=
  match name with
  | "" => false
  | String c _ =>
      negb (is_digit c) && forallb ordinary (list_ascii_of_string name)
  end.

Definition plain_piece (p : piece) : bool :=
  match p with
  | Lit _ => true
  | Placeholder name => plain_name name
  end.

(** The template with each placeholder replaced by the text of its value,
    [format(v, "")], which for a [str] or a [Path] is [str(v)]. *)
Fixpoint substitute {V} `{!PyObject V} (kwargs : gmap string V)
    (t : list piece) : result string :=
  match t with
  | [] => Ok ""
  | Lit c :: t' =>
      tail ← substitute kwargs t';
      Ok (String c tail)
  | Placeholder name :: t' =>
      match kwargs !! name with
      | None => Raise (Exn KeyError [Text name])
      | Some v =>
          text ← py_format v "";
          tail ← substitute kwargs t';
          Ok (text ++ tail)
      end
  end.

Fixpoint pieces_markup (t : list piece) : markup :=
  match t with
  | [] => MEnd
  | Lit c :: t' => MChar c (pieces_markup t')
  | Placeholder name :: t' => MField name None "" false (pieces_markup t')
  end.

(** The spec's words for the content of the written file: "the template
    with each placeholder replaced by the corresponding value", a
    placeholder being a name between braces; every other character of the
    template is kept. *)
Fixpoint replace_placeholders (kwargs : gmap string pyvalue) (s : string)
    : string :=
  match s with
  | "" => ""
  | String c s' =>
      if Ascii.eqb c "{" then replace_name kwargs "" s'
      else String c (replace_placeholders kwargs s')
  end
with replace_name (kwargs : gmap string pyvalue) (name : string) (s : string)
    : string :=
  match s with
  | "" => "{" ++ name
  | String c s' =>
      if Ascii.eqb c "}" then
        match kwargs !! name with
        | Some v => str_of v
        | None => "{" ++ name ++ "}"
        end ++ replace_placeholders kwargs s'
      else replace_name kwargs (snoc name c) s'
  end.

(** ** Example states *)

Module Examples.
Definition bcompare : path := ["opt"; "bcompare"; "bcompare"].
Definition data : path := ["var"; "bc"].
Definition noon : datetime := Datetime 2024 1 2 12 0 0.
Definition run_dir : path := joinpath data "20240102-120000".
Definition script : path := joinpath run_dir SCRIPT_FILE_NAME.

(** The tool is installed and executable (mode 0o755); umask 0o022. *)
Definition installed : filesystem :=
  {| nodes := {[ ["opt"] := Dir 0x1ed;
                 ["opt"; "bcompare"] := Dir 0x1ed;
                 bcompare := File 0x1ed "" ]};
     umask := 0x12 |}.

(** After construction and one [prepare_current_run_directory]. *)
Definition prepared_fs : filesystem :=
  {| nodes := {[ ["opt"] := Dir 0x1ed;
                 ["opt"; "bcompare"] := Dir 0x1ed;
                 bcompare := File 0x1ed "";
                 ["var"] := Dir 0x1ed;
                 data := Dir 0x1ed;
                 run_dir := Dir 0x1ed ]};
     umask := 0x12 |}.

(** The same with a script already written. *)
Definition written_fs : filesystem :=
  fs_insert script (File 0x1a4 "Test script") prepared_fs.

Definition runner (template : string) (pending script_slot : option path)
    : BeyondCompareScript :=
  {| executable_path := Some bcompare; script_data := template;
     data_directory := data; subprocess_command := None;
     current_run_directory := pending; script_path := script_slot |}.

Definition quiet (f : filesystem) : world :=
  {| fs := f; log := []; console := [] |}.

Definition prepared (template : string) : state :=
  {| self := runner template (Some run_dir) None; env := quiet prepared_fs |}.

Definition written (template : string) : state :=
  {| self := runner template None (Some script); env := quiet written_fs |}.

Definition fresh (template : string) : state :=
  {| self := runner template None None; env := quiet prepared_fs |}.

(** Keyword arguments: a [str] and a [Path]. *)
Definition kw : gmap string pyvalue :=
  {[ "name" := PyStr "World"; "report" := PyPath ["var"; "bc"; "r.html"] ]}.
End Examples.

Module Tool.
(** The tool exits with status 1 and the text "boom" on its error
    stream. *)
Definition fails_with_text (_ : list string) (f : filesystem)
    : exec_outcome :=
  Exited 1 [] [Byte.x62; Byte.x6f; Byte.x6f; Byte.x6d] f.

(** The tool exits with status 1 and the single byte 0xff on its error
    stream. *)
Definition fails_with_byte_ff (_ : list string) (f : filesystem)
    : exec_outcome :=
  Exited 1 [] [Byte.xff] f.
End Tool.

(** ** The states the other calls leave *)

Definition executable_not_found (exe : option path) : exn :=
  Exn EnvironmentError
    [Text ("Beyond Compare executable not found at `" ++
           fstr_opt_path exe ++ "`.")].

Definition ensuring_record : log_record :=
  LogRecord DEBUG
    [Text "Ensuring executable exists and is an executable file."].

(** The world once [__init__] has created the data directory, leaving the
    file system [f], and has logged. *)
Definition checking (w : world) (f : filesystem) : world :=
  {| fs := f; log := log w ++ [ensuring_record]; console := console w |}.

(** The object [__init__] returns. *)
Definition constructed (exe : option path) (template : string)
    (data_dir : path) : BeyondCompareScript :=
  {| executable_path := exe; script_data := template;
     data_directory := data_dir; subprocess_command := None;
     current_run_directory := None; script_path := None |}.

Definition run_directory_of (o : BeyondCompareScript) (now : datetime)
    : path :=
  joinpath (data_directory o) (strftime_Ymd_HMS now).

Definition creating_record (run_dir : path) : log_record :=
  LogRecord INFO
    [Text ("Creating current run directory at " ++ path_str run_dir)].

(** The state [prepare_current_run_directory] is in once it has assigned
    the slot and logged, over the file system [f]. *)
Definition preparing (st : state) (now : datetime) (f : filesystem)
    : state :=
  {| self := set_current_run_directory
               (Some (run_directory_of (self st) now)) (self st);
     env := {| fs := f;
               log := log (env st) ++
                      [creating_record (run_directory_of (self st) now)];
               console := console (env st) |} |}.

Definition command_record (p : path) : log_record :=
  LogRecord INFO
    [Text ("Preparing subprocess command for script at " ++ path_str p)].

(** The state [prepare_subprocess_command] leaves when the script is at
    [p]. *)
Definition commanded (st : state) (p : path) : state :=
  {| self := set_subprocess_command (Some (invocation (self st) p))
               (self st);
     env := {| fs := fs (env st);
               log := log (env st) ++ [command_record p];
               console := console (env st) |} |}.

Definition running_record (p : path) : log_record :=
  LogRecord INFO [Text ("Running script at " ++ path_str p)].

(** The state [run_script] is in when [run_command] is called. *)
Definition launching (st : state) (p : path) : state :=
  {| self := self (commanded st p);
     env := {| fs := fs (env st);
               log := log (env (commanded st p)) ++ [running_record p];
               console := console (env st) |} |}.

(** The state after the child has ended, leaving the file system [f], with
    [records] logged and [texts] printed since the launch. *)
Definition finished (st : state) (p : path) (f : filesystem)
    (records : list log_record) (texts : list (list byte)) : state :=
  {| self := self (launching st p);
     env := {| fs := f;
               log := log (env (launching st p)) ++ records;
               console := console (env st) ++ texts |} |}.

Definition removing_record (p : path) : log_record :=
  LogRecord INFO [Text ("Removing script file at " ++ path_str p)].

(** ** Templates without fields, and the fields of a template *)

Definition no_braces (s : string) : bool :=
  forallb (fun c => negb (is_brace c)) (list_ascii_of_string s).

(** The names of the replacement fields [MarkupIterator] yields at the top
    level, up to the end of the template or its first syntax error. *)
Fixpoint markup_fields (m : markup) : list string :=
  match m with
  | MEnd | MError _ => []
  | MChar _ rest => markup_fields rest
  | MField name _ _ _ rest => name :: markup_fields rest
  end.

Definition template_fields (template : string) : list string :=
  markup_fields (MarkupIterator template).

(** ** Byte streams and tools of the examples *)

(** Seven-bit bytes. *)
Definition is_ascii_bytes (b : list byte) : bool :=
  forallb (in_range 0x00 0x7f) b.

(** The record [run_script] logs when it swallows the exception [e]. *)
Definition swallowed_record (p : path) (e : exn) : log_record :=
  LogRecord ERROR
    (Text ("Error running script at " ++ path_str p ++ ": ") :: exn_args e).

Module MoreTools.
(** The tool exits with status 0, "ok" on its output stream and nothing on
    its error stream, and leaves a report beside the script. *)
Definition reports (command : list string) (f : filesystem) : exec_outcome :=
  Exited 0 [Byte.x6f; Byte.x6b] []
    (fs_insert (joinpath Examples.run_dir "report.html") (File 0x1a4 "report")
       f).

(** The tool exits with status 0 and the byte 0xff on its output stream. *)
Definition chatters (command : list string) (f : filesystem) : exec_outcome :=
  Exited 0 [Byte.xff] [] f.

(** The executable cannot be started. *)
Definition missing (command : list string) (f : filesystem) : exec_outcome :=
  SpawnFailed (Exn FileNotFoundError []).
End MoreTools.

(** ** Malformed templates, and the mirror script of the tests *)

(** The stream ends in a syntax error. *)
Fixpoint markup_error (m : markup) : bool :=
  match m with
  | MEnd => false
  | MError _ => true
  | MChar _ rest => markup_error rest
  | MField _ _ _ _ rest => markup_error rest
  end.

Definition template_malformed (template : string) : bool :=
  markup_error (MarkupIterator template).

Module Mirror.
Definition QUOTE : string := String (ascii_of_N 34) "".

(** [BEYOND_COMPARE_MIRROR_SCRIPT_DATA] of the integration tests and of the
    usage example. *)
Definition script_data : string :=
  "criteria attrib:ashr timestamp:2sec size" ++ NEWLINE ++
  "load " ++ QUOTE ++ "{source_directory}" ++ QUOTE ++ " " ++
    QUOTE ++ "{target_directory}" ++ QUOTE ++ NEWLINE ++
  "expand all" ++ NEWLINE ++
  "folder-report layout:side-by-side &" ++ NEWLINE ++
  "options:display-mismatches,include-file-links &" ++ NEWLINE ++
  "title:test &" ++ NEWLINE ++
  "output-to:" ++ QUOTE ++ "{report_file_path}" ++ QUOTE ++ " &" ++ NEWLINE ++
  "output-options:html-color" ++ NEWLINE ++
  "log verbose " ++ QUOTE ++ "{log_file_path}" ++ QUOTE ++ NEWLINE ++
  "sync create-empty mirror:left->right".

(** The keyword arguments the tests build: two directories to mirror and
    two files inside the run directory. *)
Definition kwargs : gmap string pyvalue :=
  {[ "source_directory" := PyPath ["var"; "source"];
     "target_directory" := PyPath ["var"; "target"];
     "report_file_path" :=
       PyPath (joinpath Examples.run_dir "beyond_compare_folder_report.html");
     "log_file_path" :=
       PyPath (joinpath Examples.run_dir "beyond_compare_log.log") ]}.


(** What the tool does to the file system: it leaves a report and a log in
    the run directory. *)
Definition effect (f : filesystem) : filesystem :=
  fs_insert (joinpath Examples.run_dir "beyond_compare_log.log")
    (File 0x1a4 "log")
    (fs_insert
       (joinpath Examples.run_dir "beyond_compare_folder_report.html")
       (File 0x1a4 "report") f).

Definition tool (command : list string) (f : filesystem) : exec_outcome :=
  Exited 0 [] [] (effect f).

(** A runner for the mirror script, constructed and not yet prepared. *)
Definition st : state :=
  {| self := constructed (Some Examples.bcompare) script_data Examples.data;
     env := Examples.quiet Examples.installed |}.
End Mirror.

(** ** A directory in the place of the script file *)

Module Blocked.
(** The prepared file system with a directory named like the script file
    inside the run directory. *)
Definition blocked_fs : filesystem :=
  fs_insert Examples.script (Dir 0x1ed) Examples.prepared_fs.

Definition st : state :=
  {| self := Examples.runner "Test script" (Some Examples.run_dir) None;
     env := Examples.quiet blocked_fs |}.

(** A tool that exits with status 0 and writes nothing. *)
Definition tool (command : list string) (f : filesystem) : exec_outcome :=
  Exited 0 [] [] f.
End Blocked.

(** * Properties *)

(** Unfolds the monad so that a method applied to a state computes. *)
Ltac run_monad :=
  cbv [mbind mret M_bind M_ret result_bind result_ret get_self set_self
       in_env fs_read fs_op set_fs logger print modify raise lift_result
       get id];
  cbn [self env fs log console].

(** The outcome of a run, from its first component. *)
Lemma run_outcome {S A} (m : M S A) (s : S) (r : result A) :
  fst (m s) = r → m s = (r, snd (m s)).
Proof. intros <-. by destruct (m s). Qed.

(** ** The models on concrete inputs *)

Module Checks.
Import Examples.
Example format_hello : format "Hello {name}" kw = Ok "Hello World".
Proof. reflexivity. Qed.

Example format_path :
  format "log verbose {report}" kw = Ok "log verbose /var/bc/r.html".
Proof. reflexivity. Qed.

Example format_doubled_braces : format "{{{name}}}" kw = Ok "{World}".
Proof. reflexivity. Qed.

Example format_str_conversion : format "{report!s}" kw = Ok "/var/bc/r.html".
Proof. reflexivity. Qed.

Example format_missing_key :
  format "{name} {other}" kw = Raise (Exn KeyError [Text "other"]).
Proof. reflexivity. Qed.

Example format_positional : format "{0}" kw = Raise (Exn IndexError []).
Proof. reflexivity. Qed.

Example format_auto_numbered : format "{}" kw = Raise (Exn IndexError []).
Proof. reflexivity. Qed.

Example format_single_close :
  format "a}b" kw =
    Raise (value_error "Single '}' encountered in format string").
Proof. reflexivity. Qed.

Example format_single_open :
  format "a{" kw =
    Raise (value_error "Single '{' encountered in format string").
Proof. reflexivity. Qed.

Example format_unclosed :
  format "{name" kw = Raise (value_error "expected '}' before end of string").
Proof. reflexivity. Qed.

Example format_error_after_missing_key :
  format "{other} }" kw = Raise (Exn KeyError [Text "other"]).
Proof. reflexivity. Qed.

Example format_path_spec : format "{report:>9}" kw = Raise (Exn TypeError []).
Proof. reflexivity. Qed.

Example format_nested_too_deep :
  format "{name:{name:{name}}}" kw =
    Raise (value_error "Max string recursion exceeded").
Proof. reflexivity. Qed.

Example format_too_many_digits :
  format "{99999999999999999999}" kw =
    Raise (value_error "Too many decimal digits in format string").
Proof. reflexivity. Qed.

Example names_of_template :
  placeholder_names "{name} {{not}} {report.parent} {0} {a:{b}} {c[}]}" =
    ["name"; "report"; "a"; "b"; "c"].
Proof. reflexivity. Qed.

Example utf8_ascii : utf8_valid [Byte.x62; Byte.x6f; Byte.x6f; Byte.x6d] = true.
Proof. reflexivity. Qed.

Example utf8_two_bytes : utf8_valid [Byte.xc3; Byte.xa9] = true.
Proof. reflexivity. Qed.

Example utf8_byte_ff : utf8_valid [Byte.xff] = false.
Proof. reflexivity. Qed.

Example utf8_overlong : utf8_valid [Byte.xc0; Byte.x80] = false.
Proof. reflexivity. Qed.

Example utf8_surrogate : utf8_valid [Byte.xed; Byte.xa0; Byte.x80] = false.
Proof. reflexivity. Qed.

Example utf8_truncated : utf8_valid [Byte.xe2; Byte.x82] = false.
Proof. reflexivity. Qed.

Example strftime_noon :
  strftime_Ymd_HMS (Datetime 2024 1 2 12 0 0) = "20240102-120000".
Proof. reflexivity. Qed.

Example path_str_script :
  path_str (joinpath ["var"; "bc"] SCRIPT_FILE_NAME) =
    "/var/bc/beyond_compare_script.txt".
Proof. reflexivity. Qed.

Example unicode_decode_error_is_value_error :
  issubclass UnicodeDecodeError ValueError = true ∧
  issubclass UnicodeDecodeError RuntimeError = false ∧
  issubclass FileNotFoundError EnvironmentError = true.
Proof. done. Qed.
End Checks.

(** ** File-system lemmas *)

Section filesystem_lemmas.
Implicit Types (fs : filesystem) (p q : path) (n : node).

Lemma fs_lookup_insert_eq fs p n :
  p ≠ [] → fs_lookup (fs_insert p n fs) p = Some n.
Proof.
  intros Hp. destruct p as [|c p]; [done|].
  cbn. apply lookup_insert_eq.
Qed.

Lemma fs_lookup_insert_ne fs p q n :
  p ≠ q → fs_lookup (fs_insert p n fs) q = fs_lookup fs q.
Proof.
  intros Hne. destruct q as [|c q]; [done|].
  cbn. by apply lookup_insert_ne.
Qed.

Lemma fs_lookup_delete_eq fs p :
  p ≠ [] → fs_lookup (fs_delete p fs) p = None.
Proof.
  intros Hp. destruct p as [|c p]; [done|].
  cbn. apply lookup_delete_eq.
Qed.

Lemma joinpath_not_root p c : joinpath p c ≠ [].
Proof. unfold joinpath. by destruct p. Qed.

Lemma joinpath_ne p c : p ≠ joinpath p c.
Proof.
  unfold joinpath. intros Heq. apply (f_equal length) in Heq.
  rewrite length_app in Heq. cbn in Heq. lia.
Qed.

Lemma parent_joinpath p c : parent (joinpath p c) = p.
Proof. unfold parent, joinpath. apply removelast_last. Qed.

Lemma is_dir_exists fs p : is_dir fs p = true → exists_ fs p = true.
Proof. unfold is_dir, exists_. by destruct (fs_lookup fs p) as [[]|]. Qed.

(** A walk that succeeds keeps every node that was there and the umask. *)
Lemma mkdir_walk_preserves todo : ∀ base fs fs',
  mkdir_walk base todo fs = Ok fs' →
  umask fs' = umask fs ∧
  ∀ q n, fs_lookup fs q = Some n → fs_lookup fs' q = Some n.
Proof.
  induction todo as [|c rest IH]; intros base fs fs' Hwalk; cbn in Hwalk.
  - by inversion Hwalk.
  - destruct (fs_lookup fs (joinpath base c)) as [[m s|m]|] eqn:Hp;
      [done| by apply IH in Hwalk |].
    apply IH in Hwalk as [Hu Hkeep]. split; [done|].
    intros q n Hq. apply Hkeep.
    rewrite fs_lookup_insert_ne; [done|]. congruence.
Qed.

(** After a walk that succeeds, every component walked is a directory. *)
Lemma mkdir_walk_dirs todo : ∀ base fs fs',
  mkdir_walk base todo fs = Ok fs' →
  ∀ k, 0 < k ≤ length todo → is_dir fs' (base ++ take k todo) = true.
Proof.
  induction todo as [|c rest IH]; intros base fs fs' Hwalk k Hk;
    cbn in Hwalk, Hk; [lia|].
  destruct k as [|k]; [lia|]. cbn [take].
  replace (base ++ c :: take k rest)%list
    with (joinpath base c ++ take k rest)%list
    by (unfold joinpath; by rewrite <- app_assoc).
  assert (Hhere : ∀ fs1 m, mkdir_walk (joinpath base c) rest fs1 = Ok fs' →
            fs_lookup fs1 (joinpath base c) = Some (Dir m) →
            is_dir fs' (joinpath base c ++ take k rest) = true).
  { intros fs1 m Hw Hd. destruct k as [|k].
    - rewrite take_0, app_nil_r. unfold is_dir.
      apply mkdir_walk_preserves in Hw as [_ Hkeep].
      by rewrite (Hkeep _ _ Hd).
    - apply (IH _ _ _ Hw). lia. }
  destruct (fs_lookup fs (joinpath base c)) as [[m s|m]|] eqn:Hp; [done|..].
  - by apply (Hhere fs m).
  - eapply Hhere; [exact Hwalk|].
    apply fs_lookup_insert_eq, joinpath_not_root.
Qed.


(** A walk over directories changes nothing. *)
Lemma mkdir_walk_existing todo : ∀ base fs,
  (∀ k, 0 < k ≤ length todo → is_dir fs (base ++ take k todo) = true) →
  mkdir_walk base todo fs = Ok fs.
Proof.
  induction todo as [|c rest IH]; intros base fs Hdirs; cbn; [done|].
  assert (H1 : is_dir fs (joinpath base c) = true).
  { specialize (Hdirs 1). cbn in Hdirs. rewrite take_0 in Hdirs.
    apply Hdirs. lia. }
  unfold is_dir in H1.
  destruct (fs_lookup fs (joinpath base c)) as [[m s|m]|]; [done| |done].
  apply IH. intros k Hk. unfold joinpath. rewrite <- app_assoc. cbn.
  apply (Hdirs (S k)). cbn. lia.
Qed.
End filesystem_lemmas.

(** ** Building the invocation *)

(** C4 — [prepare_subprocess_command] returns the three-element list
    [[str(executable_path), "@" + str(script_path), "/silent"]] and nothing
    else when the script path is set and exists, leaving the file system as
    it was; it raises [FileNotFoundError] and changes nothing when the
    script path is unset or the file is missing. *)
Theorem prepare_subprocess_command_spec (st : state) :
  (∀ p, script_path (self st) = Some p →
        exists_ (fs (env st)) p = true →
        ∃ st', prepare_subprocess_command st =
                 (Ok [fstr_opt_path (executable_path (self st));
                      "@" ++ path_str p; "/silent"], st') ∧
               fs (env st') = fs (env st)) ∧
  ((script_path (self st) = None ∨
    ∃ p, script_path (self st) = Some p ∧ exists_ (fs (env st)) p = false) →
   ∃ e, prepare_subprocess_command st = (Raise e, st) ∧
        exn_cls e = FileNotFoundError).
Proof.
  destruct st as [o w]. split.
  - intros p Hp Hex. unfold prepare_subprocess_command. run_monad.
    cbn in Hp, Hex. rewrite Hp, Hex. cbn. eauto.
  - intros Hmiss. exists script_not_found.
    unfold prepare_subprocess_command. run_monad. cbn in Hmiss.
    destruct Hmiss as [Hnone | (p & Hp & Hex)].
    + by rewrite Hnone.
    + by rewrite Hp, Hex.
Qed.

Lemma prepare_subprocess_command_witness :
  (∃ st', prepare_subprocess_command (Examples.written "Test script") =
            (Ok ["/opt/bcompare/bcompare";
                 "@/var/bc/20240102-120000/beyond_compare_script.txt";
                 "/silent"], st') ∧
          fs (env st') = fs (env (Examples.written "Test script"))) ∧
  (∃ e, prepare_subprocess_command (Examples.fresh "Test script") =
          (Raise e, Examples.fresh "Test script") ∧
        exn_cls e = FileNotFoundError).
Proof.
  split.
  - exact (proj1 (prepare_subprocess_command_spec
                    (Examples.written "Test script"))
             Examples.script eq_refl eq_refl).
  - apply (proj2 (prepare_subprocess_command_spec
                    (Examples.fresh "Test script"))).
    left. reflexivity.
Defined.

(** ** Removing the script *)

(** C7 — [remove_script] deletes the script file when the path slot is set
    and a file is there, and leaves the slot as it was, so that the same
    call made again raises [FileNotFoundError] with the slot still set: it
    is the existence test that fails.  It raises [FileNotFoundError], and
    changes nothing, when the slot is unset or nothing is at the path. *)
Theorem remove_script_spec (st : state) :
  (∀ p m c, script_path (self st) = Some p →
            fs_lookup (fs (env st)) p = Some (File m c) →
            ∃ st', remove_script st = (Ok tt, st') ∧
                   fs (env st') = fs_delete p (fs (env st)) ∧
                   fs_lookup (fs (env st')) p = None ∧
                   self st' = self st ∧
                   exists_ (fs (env st')) p = false ∧
                   ∃ e, remove_script st' = (Raise e, st') ∧
                        exn_cls e = FileNotFoundError) ∧
  ((script_path (self st) = None ∨
    ∃ p, script_path (self st) = Some p ∧ exists_ (fs (env st)) p = false) →
   ∃ e, remove_script st = (Raise e, st) ∧ exn_cls e = FileNotFoundError).
Proof.
  destruct st as [o w]. cbn [self env]. split.
  - intros p m c Hp Hfile.
    assert (Hroot : p ≠ []) by (intros ->; discriminate Hfile).
    eexists. split; [|split; [|split; [|split; [|split]]]].
    + unfold remove_script. run_monad. rewrite Hp.
      unfold exists_, unlink. rewrite Hfile. cbn. rewrite Hfile.
      reflexivity.
    + reflexivity.
    + cbn. by apply fs_lookup_delete_eq.
    + reflexivity.
    + cbn. unfold exists_. by rewrite fs_lookup_delete_eq.
    + exists script_not_found. split; [|done].
      unfold remove_script. run_monad. rewrite Hp.
      unfold exists_. cbn. by rewrite fs_lookup_delete_eq.
  - intros Hmiss. exists script_not_found. split; [|done].
    unfold remove_script. run_monad.
    destruct Hmiss as [Hnone | (p & Hp & Hex)].
    + by rewrite Hnone.
    + by rewrite Hp, Hex.
Qed.

Lemma remove_script_witness :
  (∃ st', remove_script (Examples.written "Test script") = (Ok tt, st') ∧
          fs (env st') = fs_delete Examples.script Examples.written_fs ∧
          fs_lookup (fs (env st')) Examples.script = None ∧
          self st' = self (Examples.written "Test script") ∧
          exists_ (fs (env st')) Examples.script = false ∧
          ∃ e, remove_script st' = (Raise e, st') ∧
               exn_cls e = FileNotFoundError) ∧
  (∃ e, remove_script (Examples.fresh "Test script") =
          (Raise e, Examples.fresh "Test script") ∧
        exn_cls e = FileNotFoundError).
Proof.
  split.
  - exact (proj1 (remove_script_spec (Examples.written "Test script"))
             Examples.script 0x1a4%Z "Test script" eq_refl eq_refl).
  - apply (proj2 (remove_script_spec (Examples.fresh "Test script"))).
    left. reflexivity.
Defined.

(** ** Construction *)

Lemma mkdir_walk_raises todo : ∀ base fs e,
  mkdir_walk base todo fs = Raise e →
  exn_cls e = FileExistsError ∨ exn_cls e = NotADirectoryError.
Proof.
  induction todo as [|c rest IH]; intros base fs e Hwalk; cbn in Hwalk;
    [done|].
  destruct (fs_lookup fs (joinpath base c)) as [[m s|m]|]; eauto.
  inversion Hwalk. destruct rest; cbn; auto.
Qed.

(** C9 — when [__init__] fails at the executable check (the explicit
    [EnvironmentError], or the [FileNotFoundError] of [stat] on a missing
    executable), the data directory and each of its parents is a directory
    in the file system it leaves behind: the directories were created
    before the check. *)
Theorem init_failure_leaves_data_directory
    (exe : option path) (template : string) (data_dir : path) (w w' : world)
    (e : exn) :
  __init__ exe template data_dir w = (Raise e, w') →
  exn_cls e = EnvironmentError ∨ exn_cls e = FileNotFoundError →
  mkdir_parents_exist_ok data_dir (fs w) = Ok (fs w') ∧
  ∀ k, 0 < k ≤ length data_dir → is_dir (fs w') (take k data_dir) = true.
Proof.
  intros Hinit Hcls. unfold __init__ in Hinit. revert Hinit. run_monad.
  destruct (mkdir_parents_exist_ok data_dir (fs w)) as [fs1|e1] eqn:Hmk.
  - intros Hinit.
    assert (Hfs : fs w' = fs1).
    { destruct exe as [p|]; [|by inversion Hinit].
      revert Hinit. cbn [fs].
      destruct (stat_st_mode fs1 p) as [mode|e2]; [|by inversion 1].
      destruct (Z.land mode S_IXUGO =? 0)%Z; by inversion 1. }
    rewrite Hfs. split; [done|]. intros k Hk.
    apply (mkdir_walk_dirs data_dir [] (fs w) fs1 Hmk k Hk).
  - intros Hinit. inversion Hinit; subst e1 w'.
    apply mkdir_walk_raises in Hmk. unfold EnvironmentError in Hcls.
    destruct Hmk as [H|H], Hcls as [H'|H']; congruence.
Qed.

Lemma init_failure_leaves_data_directory_witness :
  let w := Examples.quiet Examples.installed in
  ∃ e w', __init__ (Some ["opt"; "missing"]) "Test script" Examples.data w =
            (Raise e, w') ∧
          is_dir (fs w) Examples.data = false ∧
          mkdir_parents_exist_ok Examples.data (fs w) = Ok (fs w') ∧
          ∀ k, 0 < k ≤ length Examples.data →
               is_dir (fs w') (take k Examples.data) = true.
Proof.
  intros w.
  eexists _, _. split; [vm_compute; reflexivity|]. split; [reflexivity|].
  eapply (init_failure_leaves_data_directory
            (Some ["opt"; "missing"]) "Test script" Examples.data w);
    [vm_compute; reflexivity | right; reflexivity].
Defined.

(** ** Preparing the run directory *)

Lemma mod_10_lt (n : N) : (n mod 10 < 10)%N.
Proof. by apply N.mod_upper_bound. Qed.

Lemma N_of_ascii_digit n : N_of_ascii (digit n) = (48 + n mod 10)%N.
Proof.
  unfold digit. apply N_ascii_embedding.
  pose proof (mod_10_lt n). lia.
Qed.


Lemma digit_value_digit n : digit_value (digit n) = (n mod 10)%N.
Proof.
  unfold digit_value. rewrite N_of_ascii_digit.
  generalize (n mod 10)%N. intros r. lia.
Qed.


Lemma pad2_value n : (n < 100)%N → decimal_value (pad2 n) = n.
Proof.
  intros Hn. unfold decimal_value, pad2.
  cbv -[digit digit_value N.div N.mul N.add].
  rewrite !digit_value_digit.
  rewrite (N.mod_small (n / 10) 10) by (apply N.Div0.div_lt_upper_bound; lia).
  pose proof (N.div_mod n 10). lia.
Qed.

Lemma pad4_value n : (n < 10000)%N → decimal_value (pad4 n) = n.
Proof.
  intros Hn. unfold decimal_value, pad4, pad2.
  cbv -[digit digit_value N.div N.mul N.add]. rewrite !digit_value_digit.
  rewrite (N.mod_small (n / 1000) 10)
    by (apply N.Div0.div_lt_upper_bound; lia).
  pose proof (N.div_mod n 10 ltac:(lia)).
  pose proof (N.div_mod (n / 10) 10 ltac:(lia)).
  pose proof (N.div_mod (n / 100) 10 ltac:(lia)).
  replace (n / 100)%N with (n / 10 / 10)%N in *
    by (rewrite N.Div0.div_div; reflexivity).
  replace (n / 1000)%N with (n / 10 / 10 / 10)%N
    by (rewrite !N.Div0.div_div; reflexivity).
  lia.
Qed.

Lemma read_timestamp_strftime (d : datetime) :
  datetime_valid d → read_timestamp (strftime_Ymd_HMS d) = d.
Proof.
  destruct d as [y mo da h mi s].
  intros (Hy & Hmo & Hda & Hh & Hmi & Hs). cbn in *.
  transitivity
    {| year := decimal_value (pad4 y); month := decimal_value (pad2 mo);
       day := decimal_value (pad2 da); hour := decimal_value (pad2 h);
       minute := decimal_value (pad2 mi);
       second := decimal_value (pad2 s) |}.
  - reflexivity.
  - rewrite pad4_value by lia. rewrite !pad2_value by lia. reflexivity.
Qed.

(** [prepare_current_run_directory] by the outcome of the directory
    creation. *)
Lemma prepare_run (now : datetime) (st : state) :
  prepare_current_run_directory now st =
    match mkdir_parents_exist_ok (run_directory_of (self st) now)
            (fs (env st)) with
    | Ok made => (Ok (run_directory_of (self st) now), preparing st now made)
    | Raise e => (Raise e, preparing st now (fs (env st)))
    end.
Proof.
  destruct st as [o w]. unfold prepare_current_run_directory. run_monad.
  fold (run_directory_of o now). cbn.
  by destruct (mkdir_parents_exist_ok (run_directory_of o now) (fs w)).
Qed.






(** ** The executable check *)

(** A walk changes no path other than the components it walks. *)
Lemma mkdir_walk_other todo : ∀ base fs fs' q,
  mkdir_walk base todo fs = Ok fs' →
  (∀ k, 0 < k ≤ length todo → q ≠ (base ++ take k todo)%list) →
  fs_lookup fs' q = fs_lookup fs q.
Proof.
  induction todo as [|c rest IH]; intros base fs fs' q Hwalk Hq;
    cbn in Hwalk.
  - by inversion Hwalk.
  - assert (Hq1 : q ≠ joinpath base c).
    { specialize (Hq 1). cbn in Hq. rewrite take_0 in Hq. apply Hq. lia. }
    assert (Hqrest : ∀ k, 0 < k ≤ length rest →
                          q ≠ (joinpath base c ++ take k rest)%list).
    { intros k Hk. unfold joinpath. rewrite <- app_assoc. cbn.
      apply (Hq (S k)). cbn. lia. }
    destruct (fs_lookup fs (joinpath base c)) as [[m s|m]|]; [done|..].
    + by apply (IH _ _ _ _ Hwalk).
    + rewrite (IH _ _ _ _ Hwalk Hqrest).
      by apply fs_lookup_insert_ne.
Qed.

Lemma isinstance_os_error e :
  exn_cls e = FileExistsError ∨ exn_cls e = NotADirectoryError ∨
  exn_cls e = FileNotFoundError ∨ exn_cls e = OSError →
  isinstance e EnvironmentError = true.
Proof.
  unfold isinstance. intros [-> | [-> | [-> | ->]]]; reflexivity.
Qed.

(** What [__init__] does reject: no executable path; a path that is
    missing and is not created as part of the data directory; a path that
    exists with none of the bits 0o111.  The exception is an
    [EnvironmentError] each time. *)
Lemma init_rejects_bad_executable
    (exe : option path) (template : string) (data_dir : path) (w : world) :
  (exe = None ∨
   ∃ p, exe = Some p ∧
        ((fs_lookup (fs w) p = None ∧
          ∀ k, 0 < k ≤ length data_dir → p ≠ take k data_dir) ∨
         ∃ n, fs_lookup (fs w) p = Some n ∧
              Z.land (st_mode_of n) S_IXUGO = 0%Z)) →
  ∃ e w', __init__ exe template data_dir w = (Raise e, w') ∧
          isinstance e EnvironmentError = true.
Proof.
  intros Hbad. unfold __init__. run_monad.
  destruct (mkdir_parents_exist_ok data_dir (fs w)) as [fs1|e1] eqn:Hmk.
  - cbn [fs]. destruct Hbad as [-> | (p & -> & Hp)].
    + eexists _, _. split; [reflexivity|]. reflexivity.
    + unfold stat_st_mode. cbn [fs log console].
      destruct Hp as [[Hnone Hout] | (n & Hn & Hbits)].
      * rewrite (mkdir_walk_other data_dir [] (fs w) fs1 p Hmk Hout), Hnone.
        eexists _, _. split; [reflexivity|]. reflexivity.
      * apply mkdir_walk_preserves in Hmk as [_ Hkeep].
        rewrite (Hkeep _ _ Hn), Hbits. cbn.
        eexists _, _. split; [reflexivity|]. reflexivity.
  - eexists _, _. split; [reflexivity|].
    apply mkdir_walk_raises in Hmk. apply isinstance_os_error. tauto.
Qed.

(** C5, the failing input — the executable path [/opt/bcompare] is missing
    and the data directory is [/opt/bcompare/runs]: [__init__] creates
    [/opt/bcompare] as a directory (mode 0o755 under umask 0o022), its
    [stat] then shows executable bits, and the object is constructed. *)
Theorem init_accepts_missing_executable :
  let exe := ["opt"; "bcompare"] in
  let w := Examples.quiet {| nodes := ∅; umask := 0x12 |} in
  exists_ (fs w) exe = false ∧
  ∃ o w', __init__ (Some exe) "Test script" ["opt"; "bcompare"; "runs"] w =
            (Ok o, w') ∧
          executable_path o = Some exe ∧
          fs_lookup (fs w') exe = Some (Dir 0x1ed).
Proof.
  intros exe w. split; [reflexivity|].
  eexists _, _. split; [vm_compute; reflexivity|]. split; reflexivity.
Qed.

(** ** Writing the script: the three ways a call ends *)

(** With a pending run directory, [write_new_script] stops at [open] with
    the file system untouched, or at [format] with the file opened (created
    or truncated, and empty), or ends normally with the text written and
    the run directory slot cleared. *)
Lemma write_new_script_run {V} `{!PyObject V} (kwargs : gmap string V)
    (st : state) (run_dir : path) :
  current_run_directory (self st) = Some run_dir →
  let p := joinpath run_dir SCRIPT_FILE_NAME in
  write_new_script kwargs st =
    match open_w p (fs (env st)) with
    | Raise e => (Raise e, writing st run_dir (fs (env st)))
    | Ok opened =>
        match format (script_data (self st)) kwargs with
        | Raise e => (Raise e, writing st run_dir opened)
        | Ok data =>
            (Ok tt, written_state st run_dir (write_close p data opened))
        end
    end.
Proof.
  intros Hdir p. destruct st as [o w]. cbn [self env] in *.
  unfold write_new_script. run_monad. rewrite Hdir. cbn [self env fs].
  fold p. destruct (open_w p (fs w)) as [opened|e]; [|reflexivity].
  cbn. destruct (format (script_data o) kwargs) as [data|e]; reflexivity.
Qed.

Lemma write_new_script_unprepared {V} `{!PyObject V}
    (kwargs : gmap string V) (st : state) :
  current_run_directory (self st) = None →
  write_new_script kwargs st = (Raise run_directory_not_set, st).
Proof.
  intros Hnone. destruct st as [o w]. cbn [self env] in *.
  unfold write_new_script. run_monad. by rewrite Hnone.
Qed.

Lemma write_new_script_clears_slot {V} `{!PyObject V}
    (kwargs : gmap string V) (st st' : state) :
  write_new_script kwargs st = (Ok tt, st') →
  current_run_directory (self st') = None.
Proof.
  destruct (current_run_directory (self st)) as [run_dir|] eqn:Hdir.
  - rewrite (write_new_script_run kwargs st run_dir Hdir).
    destruct (open_w _ _); [|discriminate].
    destruct (format _ _); [|discriminate].
    by inversion 1.
  - by rewrite (write_new_script_unprepared kwargs st Hdir).
Qed.

(** C2 — with the run directory slot unset, [write_new_script] raises the
    [ValueError] "Current run directory not set. Set it up first." and
    changes nothing; a call that ends normally leaves the slot unset, so
    the next call, whatever its arguments, raises that error. *)
Theorem write_new_script_requires_run_directory {V} `{!PyObject V}
    (kwargs kwargs' : gmap string V) (st : state) :
  (current_run_directory (self st) = None →
   write_new_script kwargs st = (Raise run_directory_not_set, st)) ∧
  (∀ st', write_new_script kwargs st = (Ok tt, st') →
          current_run_directory (self st') = None ∧
          write_new_script kwargs' st' = (Raise run_directory_not_set, st')).
Proof.
  split.
  - apply write_new_script_unprepared.
  - intros st' Hok. apply write_new_script_clears_slot in Hok.
    split; [done|]. by apply write_new_script_unprepared.
Qed.

Lemma write_new_script_requires_run_directory_witness :
  let first_call :=
    write_new_script (∅ : gmap string pyvalue)
      (Examples.prepared "Test script") in
  write_new_script (∅ : gmap string pyvalue) (Examples.fresh "Test script") =
    (Raise run_directory_not_set, Examples.fresh "Test script") ∧
  fst first_call = Ok tt ∧
  current_run_directory (self (snd first_call)) = None ∧
  write_new_script ({[ "name" := PyStr "World" ]} : gmap string pyvalue)
    (snd first_call) = (Raise run_directory_not_set, snd first_call).
Proof.
  intros first_call. split.
  - apply (proj1 (write_new_script_requires_run_directory ∅ ∅
                    (Examples.fresh "Test script"))).
    reflexivity.
  - split; [vm_compute; reflexivity|].
    apply (proj2 (write_new_script_requires_run_directory ∅
                    {[ "name" := PyStr "World" ]}
                    (Examples.prepared "Test script"))).
    apply run_outcome. vm_compute. reflexivity.
Defined.

(** ** Formatting depends on the keywords a template names *)

Section format_lemmas.
Context {V : Type} `{!PyObject V}.
Implicit Types (get : string → option V) (m : markup).

Lemma get_field_object_ext get1 get2 name :
  (∀ k, keyword_of name = Some k → get1 k = get2 k) →
  get_field_object get1 name = get_field_object get2 name.
Proof.
  unfold keyword_of, get_field_object.
  destruct (field_name_split name) as [first rest].
  destruct (get_integer first) as [[i|]|e]; cbn; [by destruct first| |done].
  destruct first as [|c first]; [done|].
  intros Hagree. by rewrite (Hagree _ eq_refl).
Qed.

Lemma get_field_object_missing get name k :
  keyword_of name = Some k → get k = None →
  ∃ e, get_field_object get name = Raise e.
Proof.
  unfold keyword_of, get_field_object.
  destruct (field_name_split name) as [first rest].
  destruct (get_integer first) as [[i|]|e]; cbn; [done| |done].
  destruct first as [|c first]; [done|].
  intros [= <-] ->. eauto.
Qed.

Lemma do_markup_ext get1 get2 expand1 expand2 nested m :
  (∀ spec, (∀ k, k ∈ nested spec → get1 k = get2 k) →
           expand1 spec = expand2 spec) →
  (∀ k, k ∈ markup_keywords nested m → get1 k = get2 k) →
  do_markup get1 expand1 m = do_markup get2 expand2 m.
Proof.
  intros Hexpand. induction m as [| |c rest IH|name conv spec ex rest IH];
    intros Hagree; cbn in *; [done|done|by rewrite IH|].
  rewrite IH by (intros k Hk; apply Hagree; set_solver).
  unfold output_markup.
  rewrite (get_field_object_ext get1 get2 name).
  - destruct ex; [|done].
    rewrite (Hexpand spec); [done|].
    intros k Hk. apply Hagree. set_solver.
  - intros k Hk. apply Hagree. rewrite Hk. set_solver.
Qed.

Lemma build_string_ext get1 get2 depth : ∀ input,
  (∀ k, k ∈ keywords_depth depth input → get1 k = get2 k) →
  build_string get1 depth input = build_string get2 depth input.
Proof.
  induction depth as [|depth IH]; intros input Hagree; cbn; [done|].
  by apply (do_markup_ext _ _ _ _ (keywords_depth depth)).
Qed.

Lemma do_markup_missing get expand nested m k :
  (∀ spec, k ∈ nested spec → ∃ e, expand spec = Raise e) →
  k ∈ markup_keywords nested m → get k = None →
  ∃ e, do_markup get expand m = Raise e.
Proof.
  intros Hexpand Hk Hnone.
  induction m as [| |c rest IH|name conv spec ex rest IH]; cbn in *.
  - set_solver.
  - set_solver.
  - destruct (IH Hk) as [e ->]. eauto.
  - unfold output_markup.
    apply elem_of_app in Hk. destruct Hk as [Hk|Hk].
    { destruct (keyword_of name) as [k'|] eqn:Hkw; [|set_solver].
      apply list_elem_of_singleton in Hk. subst k'.
      destruct (get_field_object_missing get name k Hkw Hnone) as [e ->].
      cbn. eauto. }
    destruct (get_field_object get name) as [obj|e]; cbn; [|eauto].
    destruct (match conv with
              | Some c => do_conversion obj c
              | None => Ok obj
              end) as [obj'|e]; cbn; [|eauto].
    apply elem_of_app in Hk. destruct Hk as [Hk|Hk].
    + destruct ex; [|set_solver].
      destruct (Hexpand spec Hk) as [e ->]. cbn. eauto.
    + destruct (if ex then expand spec else Ok spec) as [spec'|e]; cbn;
        [|eauto].
      destruct (py_format obj' spec') as [field|e]; cbn; [|eauto].
      destruct (IH Hk) as [e ->]. eauto.
Qed.

Lemma build_string_missing get depth : ∀ input k,
  k ∈ keywords_depth depth input → get k = None →
  ∃ e, build_string get depth input = Raise e.
Proof.
  induction depth as [|depth IH]; intros input k Hk Hnone; cbn in *;
    [eauto|].
  apply (do_markup_missing _ _ (keywords_depth depth) _ k); [|done..].
  intros spec Hspec. by apply (IH spec k).
Qed.
End format_lemmas.

(** Mappings that agree on the placeholder names give the same result. *)
Lemma format_agree {V} `{!PyObject V} (template : string)
    (kwargs kwargs' : gmap string V) :
  (∀ k, k ∈ placeholder_names template → kwargs !! k = kwargs' !! k) →
  format template kwargs = format template kwargs'.
Proof. apply build_string_ext. Qed.

(** A placeholder name without a value makes [format] raise. *)
Lemma format_missing {V} `{!PyObject V} (template : string)
    (kwargs : gmap string V) (k : string) :
  k ∈ placeholder_names template → kwargs !! k = None →
  ∃ e, format template kwargs = Raise e.
Proof. intros Hk Hnone. by apply (build_string_missing _ 2 template k). Qed.

(** ** Opening and writing the script file *)

Lemma open_w_file (p : path) (f opened : filesystem) :
  p ≠ [] → open_w p f = Ok opened →
  (∃ mode, fs_lookup opened p = Some (File mode "")) ∧
  ∀ q, q ≠ p → fs_lookup opened q = fs_lookup f q.
Proof.
  intros Hp. unfold open_w.
  destruct (fs_lookup f (parent p)) as [[?|?]|]; try done.
  destruct (fs_lookup f p) as [[m c|m]|]; try done; intros [= <-];
    (split; [eexists; by apply fs_lookup_insert_eq
            |intros q Hq; by apply fs_lookup_insert_ne]).
Qed.

Lemma open_w_succeeds (p : path) (f : filesystem) :
  is_dir f (parent p) = true → is_dir f p = false →
  ∃ opened, open_w p f = Ok opened.
Proof.
  unfold is_dir, open_w.
  destruct (fs_lookup f (parent p)) as [[?|?]|]; try done. intros _.
  destruct (fs_lookup f p) as [[m c|m]|]; try done; eauto.
Qed.

Lemma write_close_content (p : path) (data : string) (f : filesystem)
    (mode : Z) :
  p ≠ [] → fs_lookup f p = Some (File mode "") →
  fs_lookup (write_close p data f) p = Some (File mode data).
Proof.
  intros Hp Hfile. unfold write_close. rewrite Hfile.
  by apply fs_lookup_insert_eq.
Qed.

(** When [write_new_script] ends normally, the template was formatted and
    the result is the content of the script file, whose path is in the
    script path slot. *)
Lemma write_new_script_writes_format {V} `{!PyObject V}
    (kwargs : gmap string V) (st st' : state) (run_dir : path) :
  current_run_directory (self st) = Some run_dir →
  write_new_script kwargs st = (Ok tt, st') →
  ∃ mode data,
    format (script_data (self st)) kwargs = Ok data ∧
    fs_lookup (fs (env st')) (joinpath run_dir SCRIPT_FILE_NAME) =
      Some (File mode data) ∧
    script_path (self st') = Some (joinpath run_dir SCRIPT_FILE_NAME).
Proof.
  intros Hdir. rewrite (write_new_script_run kwargs st run_dir Hdir).
  destruct (open_w _ _) as [opened|] eqn:Hopen; [|done].
  destruct (format _ _) as [data|]; [|done]. intros [= <-].
  apply open_w_file in Hopen as [[mode Hfile] _];
    [|apply joinpath_not_root].
  exists mode, data. split; [done|]. split; [|done].
  cbn. apply write_close_content; [apply joinpath_not_root|done].
Qed.

(** ** Formatting a template of literal text and plain placeholders *)

Lemma append_nil (b : string) : "" ++ b = b.
Proof. reflexivity. Qed.

Lemma append_cons (x : ascii) (a b : string) :
  String x a ++ b = String x (a ++ b).
Proof. reflexivity. Qed.

Lemma string_app_assoc (a b c : string) : (a ++ b) ++ c = a ++ (b ++ c).
Proof.
  induction a as [|x a IH]; [done|]. by rewrite !append_cons, IH.
Qed.

Lemma string_app_nil_r (a : string) : a ++ "" = a.
Proof.
  induction a as [|x a IH]; [done|]. by rewrite append_cons, IH.
Qed.

Lemma ordinary_inv c :
  ordinary c = true →
  Ascii.eqb c "{" = false ∧ Ascii.eqb c "}" = false ∧
  Ascii.eqb c "[" = false ∧ Ascii.eqb c ":" = false ∧
  Ascii.eqb c "!" = false ∧ Ascii.eqb c "." = false.
Proof.
  unfold ordinary. rewrite !andb_true_iff, !negb_true_iff. tauto.
Qed.

Lemma parse_field_ordinary (name : string) : ∀ acc rest,
  forallb ordinary (list_ascii_of_string name) = true →
  parse_field acc (name ++ String "}" rest) =
    MField (acc ++ name) None "" false (MarkupIterator rest).
Proof.
  induction name as [|c name IH]; intros acc rest Hord.
  - rewrite append_nil, string_app_nil_r. reflexivity.
  - cbn in Hord. apply andb_true_iff in Hord as [Hc Hname].
    apply ordinary_inv in Hc as (H1 & H2 & H3 & H4 & H5 & H6).
    rewrite append_cons. cbn [parse_field]. rewrite H1, H2, H3, H4, H5.
    rewrite IH by done. unfold snoc.
    by rewrite string_app_assoc, append_cons, append_nil.
Qed.

Lemma MarkupIterator_template_text (t : list piece) :
  forallb plain_piece t = true →
  MarkupIterator (template_text t) = pieces_markup t.
Proof.
  induction t as [|[c|name] t IH]; intros Hplain; [done|..];
    cbn in Hplain.
  - specialize (IH Hplain). cbn [template_text piece_text pieces_markup].
    unfold is_brace.
    destruct (Ascii.eqb c "{") eqn:Hopen.
    { apply Ascii.eqb_eq in Hopen as ->. cbn [orb].
      rewrite !append_cons, append_nil. cbn. by rewrite IH. }
    destruct (Ascii.eqb c "}") eqn:Hclose.
    { apply Ascii.eqb_eq in Hclose as ->. cbn [orb].
      rewrite !append_cons, append_nil. cbn. by rewrite IH. }
    cbn [orb]. rewrite append_cons, append_nil. cbn [MarkupIterator].
    by rewrite Hopen, Hclose, IH.
  - apply andb_true_iff in Hplain as [Hname Hplain]. specialize (IH Hplain).
    cbn [template_text piece_text pieces_markup].
    destruct name as [|c name]; [done|].
    cbn in Hname. apply andb_true_iff in Hname as [_ Hord].
    pose proof Hord as Hord'.
    apply andb_true_iff in Hord' as [Hc _].
    apply ordinary_inv in Hc as (H1 & _).
    rewrite string_app_assoc, !append_cons, append_nil, string_app_assoc.
    rewrite !append_cons, append_nil.
    cbn [MarkupIterator]. rewrite H1. cbn [Ascii.eqb Bool.eqb].
    rewrite <- append_cons.
    rewrite parse_field_ordinary by done. by rewrite append_nil, IH.
Qed.

Lemma field_name_split_ordinary (name : string) :
  forallb ordinary (list_ascii_of_string name) = true →
  field_name_split name = (name, "").
Proof.
  induction name as [|c name IH]; intros Hord; [done|].
  cbn in Hord. apply andb_true_iff in Hord as [Hc Hname].
  apply ordinary_inv in Hc as (_ & _ & H3 & _ & _ & H6).
  cbn. by rewrite H3, H6, IH.
Qed.

Lemma get_field_object_plain {V} `{!PyObject V} (get : string → option V)
    (name : string) :
  plain_name name = true →
  get_field_object get name =
    match get name with
    | Some obj => Ok obj
    | None => Raise (Exn KeyError [Text name])
    end.
Proof.
  destruct name as [|c name]; [done|]. cbn [plain_name].
  intros [Hdigit Hord]%andb_true_iff. apply negb_true_iff in Hdigit.
  unfold get_field_object. rewrite field_name_split_ordinary by done.
  cbn. rewrite Hdigit. cbn. by destruct (get (String c name)).
Qed.

(** On a template of literal characters and plain placeholders,
    [str.format] is the substitution. *)
Lemma format_template_text {V} `{!PyObject V} (t : list piece)
    (kwargs : gmap string V) :
  forallb plain_piece t = true →
  format (template_text t) kwargs = substitute kwargs t.
Proof.
  intros Hplain. unfold format, format_with. cbn [build_string].
  rewrite MarkupIterator_template_text by done.
  induction t as [|[c|name] t IH]; cbn in Hplain; [done|..].
  - cbn. by rewrite IH.
  - apply andb_true_iff in Hplain as [Hname Hplain].
    cbn [pieces_markup do_markup substitute]. rewrite IH by done.
    unfold output_markup. rewrite get_field_object_plain by done.
    by destruct (kwargs !! name).
Qed.

(** C3 (as amended) — after [write_new_script] has ended normally, the
    file [beyond_compare_script.txt] in the pending run directory holds
    exactly the result of [str.format] on the template, and the script path
    slot holds that file's path.  For a template made of literal characters
    (a literal brace being written twice in the template) and plain
    placeholders [{name}], that content is the literal characters, each
    brace once, with each placeholder replaced by the text of its value. *)
Theorem write_new_script_content {V} `{!PyObject V}
    (kwargs : gmap string V) (st st' : state) (run_dir : path) :
  current_run_directory (self st) = Some run_dir →
  write_new_script kwargs st = (Ok tt, st') →
  ∃ mode content,
    format (script_data (self st)) kwargs = Ok content ∧
    fs_lookup (fs (env st')) (joinpath run_dir SCRIPT_FILE_NAME) =
      Some (File mode content) ∧
    script_path (self st') = Some (joinpath run_dir SCRIPT_FILE_NAME) ∧
    ∀ t, forallb plain_piece t = true →
         script_data (self st) = template_text t →
         substitute kwargs t = Ok content.
Proof.
  intros Hdir Hok.
  destruct (write_new_script_writes_format kwargs st st' run_dir Hdir Hok)
    as (mode & data & Hformat & Hfile & Hslot).
  exists mode, data. split; [done|]. split; [done|]. split; [done|].
  intros t Hplain Htext.
  by rewrite <- format_template_text, <- Htext.
Qed.

Lemma write_new_script_content_witness :
  let hello := [Lit "H"; Lit "e"; Lit "l"; Lit "l"; Lit "o"; Lit " ";
                Placeholder "name"]%char in
  let kwargs : gmap string pyvalue := {[ "name" := PyStr "World" ]} in
  let call := write_new_script kwargs (Examples.prepared "Hello {name}") in
  template_text hello = "Hello {name}" ∧
  fst call = Ok tt ∧
  substitute kwargs hello = Ok "Hello World" ∧
  ∃ mode,
    fs_lookup (fs (env (snd call))) Examples.script =
      Some (File mode "Hello World") ∧
    script_path (self (snd call)) = Some Examples.script.
Proof.
  intros hello kwargs call. split; [reflexivity|].
  split; [vm_compute; reflexivity|]. split; [vm_compute; reflexivity|].
  destruct (write_new_script_content kwargs
              (Examples.prepared "Hello {name}") (snd call) Examples.run_dir
              eq_refl)
    as (mode & content & Hformat & Hfile & Hslot & Hsubst).
  - apply run_outcome. vm_compute. reflexivity.
  - exists mode. specialize (Hsubst hello eq_refl eq_refl).
    vm_compute in Hsubst. inversion Hsubst. subst content. by split.
Defined.

(** C3, the claim as stated fails: the template "a}}b" has no placeholder,
    the call ends normally, and the file holds "a}b", which is not the
    template. *)
Lemma write_new_script_collapses_doubled_brace :
  let kwargs : gmap string pyvalue := ∅ in
  let call := write_new_script kwargs (Examples.prepared "a}}b") in
  placeholder_names "a}}b" = [] ∧
  replace_placeholders kwargs "a}}b" = "a}}b" ∧
  fst call = Ok tt ∧
  fs_lookup (fs (env (snd call))) Examples.script =
    Some (File 0x1a4 "a}b") ∧
  "a}b" ≠ replace_placeholders kwargs "a}}b".
Proof.
  intros kwargs call. repeat split; try (vm_compute; reflexivity).
  discriminate.
Qed.

(** ** Placeholder mismatch *)

(** C8 — with a pending run directory: when the template refers to a
    placeholder name that has no value among the keyword arguments,
    [write_new_script] raises; and keyword arguments under names the
    template does not refer to change nothing, the call with them having
    the outcome (result, runner and file system) of the call without
    them. *)
Theorem write_new_script_placeholder_mismatch {V} `{!PyObject V}
    (kwargs extras : gmap string V) (st : state) (run_dir : path) :
  current_run_directory (self st) = Some run_dir →
  (∀ k, k ∈ placeholder_names (script_data (self st)) →
        kwargs !! k = None →
        ∃ e st', write_new_script kwargs st = (Raise e, st')) ∧
  ((∀ k, k ∈ placeholder_names (script_data (self st)) →
         extras !! k = None) →
   write_new_script (kwargs ∪ extras) st = write_new_script kwargs st).
Proof.
  intros Hdir. split.
  - intros k Hk Hnone.
    rewrite (write_new_script_run kwargs st run_dir Hdir).
    destruct (open_w _ _) as [opened|e]; [|eauto].
    destruct (format_missing (script_data (self st)) kwargs k Hk Hnone)
      as [e ->].
    eauto.
  - intros Hextra.
    rewrite !(write_new_script_run _ st run_dir Hdir).
    rewrite (format_agree (script_data (self st)) (kwargs ∪ extras) kwargs);
      [done|].
    intros k Hk. rewrite lookup_union, (Hextra k Hk).
    by destruct (kwargs !! k).
Qed.

Lemma write_new_script_placeholder_mismatch_witness :
  let st := Examples.prepared "Hello {name}" in
  let kwargs : gmap string pyvalue := {[ "name" := PyStr "World" ]} in
  let extras : gmap string pyvalue := {[ "unused" := PyPath ["tmp"] ]} in
  (∃ e st', write_new_script (∅ : gmap string pyvalue) st = (Raise e, st')) ∧
  write_new_script (kwargs ∪ extras) st = write_new_script kwargs st ∧
  fst (write_new_script kwargs st) = Ok tt.
Proof.
  intros st kwargs extras. split; [|split].
  - apply (proj1 (write_new_script_placeholder_mismatch ∅ ∅ st
                    Examples.run_dir eq_refl) "name");
      vm_compute; [constructor | reflexivity].
  - apply (proj2 (write_new_script_placeholder_mismatch kwargs extras st
                    Examples.run_dir eq_refl)).
    intros k Hk. vm_compute in Hk.
    apply list_elem_of_singleton in Hk as ->. reflexivity.
  - vm_compute. reflexivity.
Defined.

(** C10 — with a pending run directory that exists and no directory in the
    place of the script file: when the template refers to a placeholder
    name that has no value, [write_new_script] raises and leaves the run
    directory slot set, the script path slot assigned to the new file's
    path, and an empty file at that path; a further call whose arguments
    format the template is not stopped by the sequencing guard and ends
    normally with the text written. *)
Theorem write_new_script_not_atomic {V} `{!PyObject V}
    (kwargs : gmap string V) (st : state) (run_dir : path) (k : string) :
  let p := joinpath run_dir SCRIPT_FILE_NAME in
  current_run_directory (self st) = Some run_dir →
  is_dir (fs (env st)) run_dir = true →
  is_dir (fs (env st)) p = false →
  k ∈ placeholder_names (script_data (self st)) →
  kwargs !! k = None →
  ∃ e st',
    write_new_script kwargs st = (Raise e, st') ∧
    current_run_directory (self st') = Some run_dir ∧
    script_path (self st') = Some p ∧
    (∃ mode, fs_lookup (fs (env st')) p = Some (File mode "")) ∧
    ∀ kwargs' data,
      format (script_data (self st)) kwargs' = Ok data →
      ∃ st'' mode,
        write_new_script kwargs' st' = (Ok tt, st'') ∧
        fs_lookup (fs (env st'')) p = Some (File mode data).
Proof.
  intros p Hdir Hrun Hnodir Hk Hnone.
  assert (Hp : p ≠ []) by apply joinpath_not_root.
  rewrite (write_new_script_run kwargs st run_dir Hdir). fold p.
  destruct (open_w_succeeds p (fs (env st))) as [opened Hopen];
    [by unfold p; rewrite parent_joinpath | done |].
  rewrite Hopen.
  destruct (format_missing (script_data (self st)) kwargs k Hk Hnone)
    as [e ->].
  destruct (open_w_file p (fs (env st)) opened Hp Hopen)
    as [[mode Hfile] Hother].
  exists e, (writing st run_dir opened).
  split; [done|]. split; [done|]. split; [done|]. split; [by exists mode|].
  intros kwargs' data Hformat.
  assert (Hdir' : current_run_directory (self (writing st run_dir opened))
                  = Some run_dir) by done.
  rewrite (write_new_script_run kwargs' _ run_dir Hdir'). fold p.
  cbn [writing self env fs script_data set_script_path].
  destruct (open_w_succeeds p opened) as [opened' Hopen'].
  { unfold p. rewrite parent_joinpath. unfold is_dir in *.
    rewrite Hother; [done|]. apply joinpath_ne. }
  { unfold is_dir. by rewrite Hfile. }
  rewrite Hopen', Hformat.
  destruct (open_w_file p opened opened' Hp Hopen') as [[mode' Hfile'] _].
  eexists _, mode'. split; [reflexivity|].
  cbn. by apply write_close_content.
Qed.

Lemma write_new_script_not_atomic_witness :
  let st := Examples.prepared "Hello {name}" in
  let call := write_new_script (∅ : gmap string pyvalue) st in
  fs_lookup (fs (env st)) Examples.script = None ∧
  ∃ e st',
    call = (Raise e, st') ∧
    current_run_directory (self st') = Some Examples.run_dir ∧
    script_path (self st') = Some Examples.script ∧
    ∃ mode, fs_lookup (fs (env st')) Examples.script = Some (File mode "").
Proof.
  intros st call. split; [reflexivity|].
  destruct (write_new_script_not_atomic (∅ : gmap string pyvalue) st
              Examples.run_dir "name")
    as (e & st' & Hcall & Hslot & Hpath & Hfile & _);
    try (vm_compute; first [reflexivity | constructor]).
  exists e, st'. by repeat split.
Defined.

(** ** Running the script *)

Section run_lemmas.
Variable os_exec : list string → filesystem → exec_outcome.

(** A failing tool whose error stream decodes: the failure is logged with
    the command and the error text, and [run_script] ends normally. *)
Lemma run_script_swallows_failure (print_output : bool) (st : state)
    (p : path) (returncode : Z) (stdout stderr : list byte)
    (fs' : filesystem) :
  script_path (self st) = Some p →
  exists_ (fs (env st)) p = true →
  os_exec (invocation (self st) p) (fs (env st)) =
    Exited returncode stdout stderr fs' →
  returncode ≠ 0%Z →
  utf8_valid stderr = true →
  ∃ st', run_script os_exec print_output st = (Ok tt, st') ∧
         last (log (env st')) =
           Some (failure_record p (invocation (self st) p) stderr).
Proof.
  intros Hp Hex Hexec Hrc Hutf.
  destruct st as [o w]. cbn [self env] in *.
  unfold run_script, prepare_subprocess_command. run_monad.
  rewrite Hp, Hex. cbn.
  unfold try_except, run_command, decode. run_monad.
  fold (invocation o p). rewrite Hexec.
  apply Z.eqb_neq in Hrc. rewrite Hrc, Hutf. cbn.
  eexists. split; [reflexivity|]. cbn.
  rewrite last_snoc. unfold failure_record. rewrite Hp. reflexivity.
Qed.

(** A failing tool whose error stream is not UTF-8: [UnicodeDecodeError]
    is raised while the [RuntimeError] is being built, is not caught, and
    leaves [run_script]; no failure is logged. *)
Lemma run_script_decode_error_escapes (print_output : bool) (st : state)
    (p : path) (returncode : Z) (stdout stderr : list byte)
    (fs' : filesystem) :
  script_path (self st) = Some p →
  exists_ (fs (env st)) p = true →
  os_exec (invocation (self st) p) (fs (env st)) =
    Exited returncode stdout stderr fs' →
  returncode ≠ 0%Z →
  utf8_valid stderr = false →
  ∃ st', run_script os_exec print_output st =
           (Raise (Exn UnicodeDecodeError []), st') ∧
         last (log (env st')) =
           Some (LogRecord INFO
                   [Text ("Running script at " ++ path_str p)]).
Proof.
  intros Hp Hex Hexec Hrc Hutf.
  destruct st as [o w]. cbn [self env] in *.
  unfold run_script, prepare_subprocess_command. run_monad.
  rewrite Hp, Hex. cbn.
  unfold try_except, run_command, decode. run_monad.
  fold (invocation o p). rewrite Hexec.
  apply Z.eqb_neq in Hrc. rewrite Hrc, Hutf. cbn.
  eexists. split; [reflexivity|]. cbn. rewrite last_snoc, Hp. reflexivity.
Qed.
End run_lemmas.

(** The spec's scenario: exit status 1 and some error text. *)
Example run_script_failure_logged :
  let st := Examples.written "Test script" in
  let run := run_script Tool.fails_with_text true st in
  fst run = Ok tt ∧
  last (log (env (snd run))) =
    Some (failure_record Examples.script
            ["/opt/bcompare/bcompare";
             "@/var/bc/20240102-120000/beyond_compare_script.txt";
             "/silent"]
            [Byte.x62; Byte.x6f; Byte.x6f; Byte.x6d]).
Proof. split; vm_compute; reflexivity. Qed.

(** C1, the failing input — the script file exists and the tool exits with
    status 1 after writing the byte 0xff to its error stream:
    [run_script] raises [UnicodeDecodeError], which is not a
    [RuntimeError], and the log holds the two INFO records only. *)
Theorem run_script_undecodable_stderr_propagates :
  let st := Examples.written "Test script" in
  let run := run_script Tool.fails_with_byte_ff true st in
  script_path (self st) = Some Examples.script ∧
  exists_ (fs (env st)) Examples.script = true ∧
  fst run = Raise (Exn UnicodeDecodeError []) ∧
  isinstance (Exn UnicodeDecodeError []) RuntimeError = false ∧
  log (env (snd run)) =
    [LogRecord INFO
       [Text ("Preparing subprocess command for script at " ++
              "/var/bc/20240102-120000/beyond_compare_script.txt")];
     LogRecord INFO
       [Text ("Running script at " ++
              "/var/bc/20240102-120000/beyond_compare_script.txt")]].
Proof. repeat split; vm_compute; reflexivity. Qed.


(** * Further properties of the runner *)

(** ** [__init__] *)

Lemma init_run (exe : option path) (template : string) (data_dir : path)
    (w : world) :
  __init__ exe template data_dir w =
    match mkdir_parents_exist_ok data_dir (fs w) with
    | Raise e => (Raise e, w)
    | Ok made =>
        match exe with
        | None => (Raise (executable_not_found None), checking w made)
        | Some p =>
            match fs_lookup made p with
            | None => (Raise (Exn FileNotFoundError []), checking w made)
            | Some n =>
                if (Z.land (st_mode_of n) S_IXUGO =? 0)%Z
                then (Raise (executable_not_found exe), checking w made)
                else (Ok (constructed exe template data_dir),
                      checking w made)
            end
        end
    end.
Proof.
  unfold __init__. run_monad.
  destruct (mkdir_parents_exist_ok data_dir (fs w)) as [made|e];
    [|reflexivity].
  cbn [fs log console]. destruct exe as [p|]; [|reflexivity].
  unfold stat_st_mode. cbn [fs log console].
  destruct (fs_lookup made p) as [n|]; [|reflexivity].
  cbn. by destruct (Z.land (st_mode_of n) S_IXUGO =? 0)%Z.
Qed.

(** X1 — a runner that [__init__] returns holds the three arguments and
    has no command, no pending run directory and no script; the data
    directory and its parents are directories, the executable path exists
    with one of the bits 0o111, one DEBUG record has been logged and
    nothing printed. *)
Theorem init_postcondition (exe : option path) (template : string)
    (data_dir : path) (w w' : world) (o : BeyondCompareScript) :
  __init__ exe template data_dir w = (Ok o, w') →
  o = constructed exe template data_dir ∧
  mkdir_parents_exist_ok data_dir (fs w) = Ok (fs w') ∧
  (∀ k, 0 < k ≤ length data_dir → is_dir (fs w') (take k data_dir) = true) ∧
  (∃ p n, exe = Some p ∧ fs_lookup (fs w') p = Some n ∧
          Z.land (st_mode_of n) S_IXUGO ≠ 0%Z) ∧
  log w' = (log w ++ [ensuring_record])%list ∧
  console w' = console w.
Proof.
  rewrite init_run.
  destruct (mkdir_parents_exist_ok data_dir (fs w)) as [made|e] eqn:Hmk;
    [|done].
  destruct exe as [p|]; [|done].
  destruct (fs_lookup made p) as [n|] eqn:Hp; [|done].
  destruct (Z.land (st_mode_of n) S_IXUGO =? 0)%Z eqn:Hbits; [done|].
  intros [= <- <-]. cbn. split; [done|]. split; [done|].
  split; [apply (mkdir_walk_dirs data_dir [] (fs w) made Hmk)|].
  split; [|done]. exists p, n. split; [done|]. split; [done|].
  by apply Z.eqb_neq.
Qed.

Lemma init_postcondition_witness :
  let w := Examples.quiet Examples.installed in
  let call := __init__ (Some Examples.bcompare) "Test script" Examples.data w in
  fst call = Ok (constructed (Some Examples.bcompare) "Test script"
                   Examples.data) ∧
  is_dir (fs w) Examples.data = false ∧
  is_dir (fs (snd call)) Examples.data = true ∧
  log (snd call) = [ensuring_record].
Proof.
  intros w call.
  destruct (init_postcondition (Some Examples.bcompare) "Test script"
              Examples.data w (snd call)
              (constructed (Some Examples.bcompare) "Test script"
                 Examples.data))
    as (_ & _ & Hdirs & _ & Hlog & _).
  - apply run_outcome. vm_compute. reflexivity.
  - split; [vm_compute; reflexivity|]. split; [reflexivity|].
    split; [|exact Hlog]. apply (Hdirs 2). cbn. lia.
Defined.

(** X2 — an exception that leaves [__init__] is either the one [mkdir]
    raised on the data directory, and then the check was not reached and
    nothing was logged, or an instance of [EnvironmentError] (that is, of
    [OSError]) raised at the check of an executable path made of portable
    names: the explicit one or the error of [stat]; the data directory has
    then been created and the DEBUG record logged. *)
Theorem init_exception_origin (exe : option path) (template : string)
    (data_dir : path) (w w' : world) (e : exn) :
  portable_slot exe = true →
  __init__ exe template data_dir w = (Raise e, w') →
  (mkdir_parents_exist_ok data_dir (fs w) = Raise e ∧ log w' = log w) ∨
  (∃ made, mkdir_parents_exist_ok data_dir (fs w) = Ok made ∧
           fs w' = made ∧
           log w' = (log w ++ [ensuring_record])%list ∧
           isinstance e EnvironmentError = true ∧
           ((∃ p, exe = Some p ∧ stat_st_mode made p = Raise e) ∨
            (e = executable_not_found exe ∧
             (exe = None ∨
              ∃ p n, exe = Some p ∧ fs_lookup made p = Some n ∧
                     Z.land (st_mode_of n) S_IXUGO = 0%Z)))).
Proof.
  intros _. rewrite init_run.
  destruct (mkdir_parents_exist_ok data_dir (fs w)) as [made|e1] eqn:Hmk.
  - intros Hinit. right. exists made. split; [done|].
    destruct exe as [p|].
    + destruct (fs_lookup made p) as [n|] eqn:Hp.
      * destruct (Z.land (st_mode_of n) S_IXUGO =? 0)%Z eqn:Hbits;
          [|done].
        injection Hinit as <- <-. repeat split; try done.
        right. split; [done|]. right. exists p, n. repeat split; try done.
        by apply Z.eqb_eq.
      * injection Hinit as <- <-. repeat split; try done.
        left. exists p. split; [done|]. unfold stat_st_mode. by rewrite Hp.
    + injection Hinit as <- <-. repeat split; try done.
      right. split; [done|]. by left.
  - intros [= <- <-]. by left.
Qed.

Lemma init_exception_origin_witness :
  let w := Examples.quiet Examples.installed in
  let call := __init__ (Some ["opt"; "missing"]) "Test script"
                Examples.data w in
  portable_slot (Some ["opt"; "missing"]) = true ∧
  fst call = Raise (Exn FileNotFoundError []) ∧
  is_dir (fs w) Examples.data = false ∧
  is_dir (fs (snd call)) Examples.data = true ∧
  log (snd call) = [ensuring_record].
Proof.
  intros w call.
  destruct (init_exception_origin (Some ["opt"; "missing"]) "Test script"
              Examples.data w (snd call) (Exn FileNotFoundError []))
    as [[Hmk _]|(made & Hmk & Hfs & Hlog & _)].
  - reflexivity.
  - apply run_outcome. vm_compute. reflexivity.
  - vm_compute in Hmk. discriminate Hmk.
  - split; [reflexivity|]. split; [vm_compute; reflexivity|].
    split; [reflexivity|]. split; [|exact Hlog].
    vm_compute. reflexivity.
Defined.

(** X3 — for a data directory made of portable names (so without ".."),
    [__init__], whether it returns or raises, keeps every node of the file
    system as it was, changes no path of portable names other than the
    data directory and its parents, and leaves the umask and the console
    alone. *)
Theorem init_frame (exe : option path) (template : string)
    (data_dir : path) (w w' : world) (r : result BeyondCompareScript) :
  portable data_dir = true →
  __init__ exe template data_dir w = (r, w') →
  (∀ q n, fs_lookup (fs w) q = Some n → fs_lookup (fs w') q = Some n) ∧
  (∀ q, portable q = true →
        (∀ k, 0 < k ≤ length data_dir → q ≠ take k data_dir) →
        fs_lookup (fs w') q = fs_lookup (fs w) q) ∧
  umask (fs w') = umask (fs w) ∧
  console w' = console w.
Proof.
  intros _. rewrite init_run.
  destruct (mkdir_parents_exist_ok data_dir (fs w)) as [made|e1] eqn:Hmk.
  - assert (Hw' : fs w' = made ∧ console w' = console w →
              (∀ q n, fs_lookup (fs w) q = Some n →
                      fs_lookup (fs w') q = Some n) ∧
              (∀ q, portable q = true →
                    (∀ k, 0 < k ≤ length data_dir → q ≠ take k data_dir) →
                    fs_lookup (fs w') q = fs_lookup (fs w) q) ∧
              umask (fs w') = umask (fs w) ∧ console w' = console w).
    { intros [-> ->].
      destruct (mkdir_walk_preserves data_dir [] (fs w) made Hmk)
        as [Hu Hkeep].
      split; [done|]. split; [|done]. intros q _ Hq.
      by apply (mkdir_walk_other data_dir [] (fs w) made q Hmk). }
    destruct exe as [p|]; [|intros [= _ <-]; by apply Hw'].
    destruct (fs_lookup made p) as [n|]; [|intros [= _ <-]; by apply Hw'].
    destruct (Z.land (st_mode_of n) S_IXUGO =? 0)%Z;
      intros [= _ <-]; by apply Hw'.
  - by intros [= _ <-].
Qed.

Lemma init_frame_witness :
  let w := Examples.quiet Examples.installed in
  let call := __init__ (Some Examples.bcompare) "Test script" Examples.data w in
  portable Examples.data = true ∧
  is_dir (fs w) Examples.data = false ∧
  is_dir (fs (snd call)) Examples.data = true ∧
  fs_lookup (fs (snd call)) Examples.bcompare = Some (File 0x1ed "") ∧
  fs_lookup (fs (snd call)) ["home"] = None ∧
  umask (fs (snd call)) = 0x12%Z.
Proof.
  intros w call. split; [reflexivity|]. split; [reflexivity|].
  split; [vm_compute; reflexivity|].
  destruct (init_frame (Some Examples.bcompare) "Test script" Examples.data
              w (snd call) (fst call))
    as (Hkeep & Hother & Hu & _).
  - reflexivity.
  - apply surjective_pairing.
  - split; [by apply Hkeep|]. split; [|exact Hu].
    rewrite Hother; [reflexivity|reflexivity|].
    intros k Hk. destruct k as [|[|[|k]]]; cbn in Hk; try lia; discriminate.
Defined.

(** X4 — constructing a second runner with the same arguments, on the
    file system the first construction left, succeeds and changes nothing
    in the file system. *)
Theorem init_again (exe : option path) (template : string)
    (data_dir : path) (w w' : world) (o : BeyondCompareScript) :
  __init__ exe template data_dir w = (Ok o, w') →
  __init__ exe template data_dir w' = (Ok o, checking w' (fs w')).
Proof.
  rewrite !init_run.
  destruct (mkdir_parents_exist_ok data_dir (fs w)) as [made|e] eqn:Hmk;
    [|done].
  destruct exe as [p|]; [|done].
  destruct (fs_lookup made p) as [n|] eqn:Hp; [|done].
  destruct (Z.land (st_mode_of n) S_IXUGO =? 0)%Z eqn:Hbits; [done|].
  intros [= <- <-]. cbn [checking fs].
  unfold mkdir_parents_exist_ok.
  rewrite (mkdir_walk_existing data_dir [] made)
    by apply (mkdir_walk_dirs data_dir [] (fs w) made Hmk).
  by rewrite Hp, Hbits.
Qed.

Lemma init_again_witness :
  let w := Examples.quiet Examples.installed in
  let first_call :=
    __init__ (Some Examples.bcompare) "Test script" Examples.data w in
  let second_call :=
    __init__ (Some Examples.bcompare) "Test script" Examples.data
      (snd first_call) in
  fst second_call = fst first_call ∧
  fs (snd second_call) = fs (snd first_call).
Proof.
  intros w first_call second_call. unfold second_call.
  rewrite (init_again (Some Examples.bcompare) "Test script" Examples.data
             w (snd first_call)
             (constructed (Some Examples.bcompare) "Test script"
                Examples.data)).
  - split; [vm_compute; reflexivity | reflexivity].
  - apply run_outcome. vm_compute. reflexivity.
Defined.

(** ** [prepare_current_run_directory] *)

(** X5 — run directories prepared under the same data directory at
    timestamps that differ in some field, down to the second, are different
    paths. *)
Theorem run_directories_distinct (d1 d2 : datetime) (st1 st2 s1 s2 : state)
    (p1 p2 : path) :
  datetime_valid d1 → datetime_valid d2 →
  data_directory (self st1) = data_directory (self st2) →
  prepare_current_run_directory d1 st1 = (Ok p1, s1) →
  prepare_current_run_directory d2 st2 = (Ok p2, s2) →
  d1 ≠ d2 → p1 ≠ p2.
Proof.
  intros Hv1 Hv2 Hdata. rewrite !prepare_run.
  destruct (mkdir_parents_exist_ok _ _); [|done]. intros [= <- _].
  destruct (mkdir_parents_exist_ok _ _); [|done]. intros [= <- _].
  intros Hne Heq. apply Hne.
  unfold run_directory_of, joinpath in Heq. rewrite Hdata in Heq.
  apply app_inv_head in Heq.
  assert (Hsingle : ∀ x y : string, [x] = [y] → x = y)
    by (by intros x y [= ->]).
  apply Hsingle in Heq.
  rewrite <- (read_timestamp_strftime d1 Hv1),
          <- (read_timestamp_strftime d2 Hv2).
  by rewrite Heq.
Qed.

Lemma run_directories_distinct_witness :
  let st := Examples.fresh "Test script" in
  let later := Datetime 2024 1 2 12 0 1 in
  let a := prepare_current_run_directory Examples.noon st in
  let b := prepare_current_run_directory later (snd a) in
  fst a = Ok ["var"; "bc"; "20240102-120000"] ∧
  fst b = Ok ["var"; "bc"; "20240102-120001"] ∧
  ["var"; "bc"; "20240102-120000"] ≠ ["var"; "bc"; "20240102-120001"].
Proof.
  intros st later a b. split; [vm_compute; reflexivity|].
  split; [vm_compute; reflexivity|].
  apply (run_directories_distinct Examples.noon later st (snd a)
           (snd a) (snd b)).
  - vm_compute. repeat split; discriminate.
  - vm_compute. repeat split; discriminate.
  - reflexivity.
  - apply run_outcome. vm_compute. reflexivity.
  - apply run_outcome. vm_compute. reflexivity.
  - discriminate.
Defined.

(** X6 — when [prepare_current_run_directory] raises, the exception is
    the one [mkdir] raised, no node of the file system has been lost, and
    the pending run directory slot has nevertheless been assigned the path
    that could not be created.  A [write_new_script] made next is therefore
    not stopped by its guard: it logs and assigns the script path inside
    that directory. *)
Theorem prepare_failure_assigns_slot {V} `{!PyObject V}
    (kwargs : gmap string V) (now : datetime) (st st' : state) (e : exn) :
  let run_dir := run_directory_of (self st) now in
  prepare_current_run_directory now st = (Raise e, st') →
  mkdir_parents_exist_ok run_dir (fs (env st)) = Raise e ∧
  (∀ q n, fs_lookup (fs (env st)) q = Some n →
          fs_lookup (fs (env st')) q = Some n) ∧
  current_run_directory (self st') = Some run_dir ∧
  script_path (self st') = script_path (self st) ∧
  ∃ r st2,
    write_new_script kwargs st' = (r, st2) ∧
    log (env st2) = (log (env st') ++ [writing_record run_dir])%list ∧
    script_path (self st2) = Some (joinpath run_dir SCRIPT_FILE_NAME).
Proof.
  intros run_dir. rewrite prepare_run. fold run_dir.
  destruct (mkdir_parents_exist_ok run_dir (fs (env st))) as [made|e1];
    [done|].
  intros [= <- <-]. split; [done|]. split; [done|].
  split; [done|]. split; [done|].
  rewrite (write_new_script_run kwargs (preparing st now (fs (env st)))
             run_dir eq_refl).
  destruct (open_w _ _) as [opened|e2]; [|by eexists _, _].
  destruct (format _ _) as [data|e2]; by eexists _, _.
Qed.

Lemma prepare_failure_assigns_slot_witness :
  let squatted := fs_insert Examples.run_dir (File 0x1a4 "")
                    Examples.prepared_fs in
  let st := {| self := Examples.runner "Test script" None None;
               env := Examples.quiet squatted |} in
  let call := prepare_current_run_directory Examples.noon st in
  fst call = Raise (Exn FileExistsError []) ∧
  current_run_directory (self (snd call)) = Some Examples.run_dir ∧
  ∃ r st2,
    write_new_script (∅ : gmap string pyvalue) (snd call) = (r, st2) ∧
    script_path (self st2) = Some Examples.script.
Proof.
  intros squatted st call.
  destruct (prepare_failure_assigns_slot (∅ : gmap string pyvalue)
              Examples.noon st (snd call) (Exn FileExistsError []))
    as (_ & _ & Hslot & _ & r & st2 & Hwrite & _ & Hscript).
  - apply run_outcome. vm_compute. reflexivity.
  - split; [vm_compute; reflexivity|]. split; [exact Hslot|].
    exists r, st2. by split.
Defined.

(** X7 — a second [prepare_current_run_directory] within the same second
    returns the same path and leaves the file system and the runner as the
    first call left them. *)
Theorem prepare_again (now : datetime) (st st1 : state) (p : path) :
  prepare_current_run_directory now st = (Ok p, st1) →
  ∃ st2, prepare_current_run_directory now st1 = (Ok p, st2) ∧
         fs (env st2) = fs (env st1) ∧
         self st2 = self st1.
Proof.
  rewrite !prepare_run.
  destruct (mkdir_parents_exist_ok _ _) as [made|e1] eqn:Hmk; [|done].
  intros [= <- <-]. cbn [preparing self env fs].
  change (run_directory_of
            (set_current_run_directory
               (Some (run_directory_of (self st) now)) (self st)) now)
    with (run_directory_of (self st) now).
  unfold mkdir_parents_exist_ok in *.
  rewrite (mkdir_walk_existing (run_directory_of (self st) now) [] made)
    by apply (mkdir_walk_dirs _ [] (fs (env st)) made Hmk).
  eexists. split; [reflexivity|]. by split.
Qed.

Lemma prepare_again_witness :
  let st := {| self := Examples.runner "Test script" None None;
               env := Examples.quiet Examples.installed |} in
  let first_call := prepare_current_run_directory Examples.noon st in
  fst first_call = Ok Examples.run_dir ∧
  is_dir (fs (env st)) Examples.run_dir = false ∧
  ∃ st2, prepare_current_run_directory Examples.noon (snd first_call) =
           (Ok Examples.run_dir, st2) ∧
         fs (env st2) = fs (env (snd first_call)) ∧
         self st2 = self (snd first_call).
Proof.
  intros st first_call. split; [vm_compute; reflexivity|].
  split; [reflexivity|].
  apply (prepare_again Examples.noon st).
  apply run_outcome. vm_compute. reflexivity.
Defined.

(** ** [write_new_script] *)




(** X9 — with a pending run directory that is not a directory (missing, or
    a regular file), or with a directory in the place of the script file,
    [write_new_script] raises an [OSError] at [open]: the file system is
    as it was, the run directory slot is still set, and the script path
    slot already names the file that was not written. *)
Theorem write_new_script_open_failure {V} `{!PyObject V}
    (kwargs : gmap string V) (st : state) (run_dir : path) :
  let p := joinpath run_dir SCRIPT_FILE_NAME in
  current_run_directory (self st) = Some run_dir →
  is_dir (fs (env st)) run_dir = false ∨ is_dir (fs (env st)) p = true →
  ∃ e st',
    write_new_script kwargs st = (Raise e, st') ∧
    isinstance e OSError = true ∧
    fs (env st') = fs (env st) ∧
    current_run_directory (self st') = Some run_dir ∧
    script_path (self st') = Some p.
Proof.
  intros p Hdir Hbad. rewrite (write_new_script_run kwargs st run_dir Hdir).
  fold p. unfold open_w, is_dir in *. unfold p at 1.
  rewrite parent_joinpath. fold p.
  destruct (fs_lookup (fs (env st)) run_dir) as [[m c|m]|] eqn:Hrun.
  - eexists _, _. split; [reflexivity|]. by repeat split.
  - destruct Hbad as [Hbad|Hbad]; [done|].
    destruct (fs_lookup (fs (env st)) p) as [[m' c'|m']|]; try done.
    eexists _, _. split; [reflexivity|]. by repeat split.
  - eexists _, _. split; [reflexivity|]. by repeat split.
Qed.

Lemma write_new_script_open_failure_witness :
  let st := {| self := Examples.runner "Test script" (Some Examples.run_dir)
                         None;
               env := Examples.quiet Examples.installed |} in
  is_dir (fs (env st)) Examples.run_dir = false ∧
  ∃ e st',
    write_new_script (∅ : gmap string pyvalue) st = (Raise e, st') ∧
    isinstance e OSError = true ∧
    fs (env st') = fs (env st) ∧
    current_run_directory (self st') = Some Examples.run_dir ∧
    script_path (self st') = Some Examples.script.
Proof.
  intros st. split; [reflexivity|].
  apply (write_new_script_open_failure (∅ : gmap string pyvalue) st
           Examples.run_dir eq_refl).
  left. reflexivity.
Defined.

Lemma do_markup_no_braces {V} `{!PyObject V} (get : string → option V)
    (expand : string → result string) (s : string) :
  no_braces s = true → do_markup get expand (MarkupIterator s) = Ok s.
Proof.
  unfold no_braces. induction s as [|c s IH]; [done|]. cbn [list_ascii_of_string forallb].
  intros [Hc Hs]%andb_true_iff. apply negb_true_iff in Hc.
  unfold is_brace in Hc. apply orb_false_iff in Hc as [Hopen Hclose].
  cbn [MarkupIterator]. rewrite Hopen, Hclose. cbn [do_markup].
  by rewrite IH.
Qed.

(** X10 — a template without braces is written as it is, whatever the
    keyword arguments: every call has the outcome of the call without
    arguments, and when it ends normally the script file holds the
    template. *)
Theorem write_new_script_verbatim {V} `{!PyObject V}
    (kwargs : gmap string V) (st : state) (run_dir : path) :
  no_braces (script_data (self st)) = true →
  current_run_directory (self st) = Some run_dir →
  write_new_script kwargs st = write_new_script (∅ : gmap string V) st ∧
  ∀ st', write_new_script kwargs st = (Ok tt, st') →
         ∃ mode, fs_lookup (fs (env st'))
                   (joinpath run_dir SCRIPT_FILE_NAME) =
                 Some (File mode (script_data (self st))).
Proof.
  intros Hplain Hdir.
  assert (Hformat : ∀ kw : gmap string V,
            format (script_data (self st)) kw = Ok (script_data (self st))).
  { intros kw. unfold format, format_with. cbn [build_string].
    by apply do_markup_no_braces. }
  split.
  - by rewrite !(write_new_script_run _ st run_dir Hdir), !Hformat.
  - intros st' Hok.
    destruct (write_new_script_writes_format kwargs st st' run_dir Hdir Hok)
      as (mode & data & Hdata & Hfile & _).
    rewrite Hformat in Hdata. injection Hdata as <-. by exists mode.
Qed.

Lemma write_new_script_verbatim_witness :
  let st := Examples.prepared "criteria attrib:ashr timestamp:2sec size" in
  let kwargs : gmap string pyvalue := {[ "name" := PyStr "World" ]} in
  write_new_script kwargs st = write_new_script (∅ : gmap string pyvalue) st ∧
  fst (write_new_script kwargs st) = Ok tt ∧
  ∃ mode, fs_lookup (fs (env (snd (write_new_script kwargs st))))
            Examples.script =
          Some (File mode "criteria attrib:ashr timestamp:2sec size").
Proof.
  intros st kwargs.
  destruct (write_new_script_verbatim kwargs st Examples.run_dir
              eq_refl eq_refl) as [Hsame Hfile].
  split; [exact Hsame|]. split; [vm_compute; reflexivity|].
  apply Hfile. apply run_outcome. vm_compute. reflexivity.
Defined.

Lemma get_field_object_positional {V} `{!PyObject V}
    (get : string → option V) (name : string) :
  keyword_of name = None → ∃ e, get_field_object get name = Raise e.
Proof.
  unfold keyword_of, get_field_object.
  destruct (field_name_split name) as [first rest].
  destruct (get_integer first) as [[i|]|e]; cbn.
  - destruct first; eauto.
  - destruct first; [eauto|done].
  - eauto.
Qed.

Lemma do_markup_positional {V} `{!PyObject V} (get : string → option V)
    (expand : string → result string) (m : markup) (name : string) :
  name ∈ markup_fields m → keyword_of name = None →
  ∃ e, do_markup get expand m = Raise e.
Proof.
  intros Hin Hkw.
  induction m as [| |c rest IH|name' conv spec ex rest IH]; cbn in *.
  - by apply elem_of_nil in Hin.
  - by apply elem_of_nil in Hin.
  - destruct (IH Hin) as [e ->]. eauto.
  - apply elem_of_cons in Hin. destruct Hin as [<-|Hin].
    + unfold output_markup.
      destruct (get_field_object_positional get name Hkw) as [e ->].
      cbn. eauto.
    + destruct (output_markup get expand name' conv spec ex) as [field|e];
        cbn; [|eauto].
      destruct (IH Hin) as [e ->]. eauto.
Qed.

Lemma format_positional_raises {V} `{!PyObject V} (template : string)
    (kwargs : gmap string V) (name : string) :
  name ∈ template_fields template → keyword_of name = None →
  ∃ e, format template kwargs = Raise e.
Proof.
  intros Hin Hkw. unfold format, format_with.
  change (build_string (fun k => kwargs !! k) 2 template)
    with (do_markup (fun k => kwargs !! k)
            (build_string (fun k => kwargs !! k) 1)
            (MarkupIterator template)).
  by apply (do_markup_positional _ _ _ name).
Qed.

(** X11 — a template with a replacement field that names no keyword (an
    empty field such as [{}], or a numeric one such as [{0}]) cannot be
    written: the runner passes keyword arguments only, and
    [write_new_script] raises whatever they are. *)
Theorem write_new_script_positional_field {V} `{!PyObject V}
    (kwargs : gmap string V) (st : state) (run_dir : path) (name : string) :
  current_run_directory (self st) = Some run_dir →
  name ∈ template_fields (script_data (self st)) →
  keyword_of name = None →
  ∃ e st', write_new_script kwargs st = (Raise e, st').
Proof.
  intros Hdir Hin Hkw. rewrite (write_new_script_run kwargs st run_dir Hdir).
  destruct (open_w _ _); [|eauto].
  destruct (format_positional_raises (script_data (self st)) kwargs name Hin Hkw)
    as [e ->].
  eauto.
Qed.

Lemma write_new_script_positional_field_witness :
  let st := Examples.prepared "load {} {0}" in
  let kwargs : gmap string pyvalue := {[ "0" := PyStr "left" ]} in
  template_fields "load {} {0}" = [""; "0"] ∧
  fst (write_new_script kwargs st) = Raise (Exn IndexError []) ∧
  ∃ e st', write_new_script kwargs st = (Raise e, st').
Proof.
  intros st kwargs. split; [reflexivity|].
  split; [vm_compute; reflexivity|].
  apply (write_new_script_positional_field kwargs st Examples.run_dir "0");
    vm_compute; first [reflexivity | constructor; constructor].
Defined.

(** ** [prepare_subprocess_command] and [remove_script] *)

Lemma prepare_command_run (st : state) :
  prepare_subprocess_command st =
    match script_path (self st) with
    | Some p =>
        if exists_ (fs (env st)) p
        then (Ok (invocation (self st) p), commanded st p)
        else (Raise script_not_found, st)
    | None => (Raise script_not_found, st)
    end.
Proof.
  destruct st as [o w]. unfold prepare_subprocess_command. run_monad.
  destruct (script_path o) as [p|]; [|reflexivity].
  by destruct (exists_ (fs w) p).
Qed.

Lemma remove_run (st : state) :
  remove_script st =
    match script_path (self st) with
    | Some p =>
        match fs_lookup (fs (env st)) p with
        | Some (File _ _) =>
            (Ok tt,
             {| self := self st;
                env := {| fs := fs_delete p (fs (env st));
                          log := log (env st) ++ [removing_record p];
                          console := console (env st) |} |})
        | Some (Dir _) =>
            (Raise (Exn IsADirectoryError []),
             {| self := self st;
                env := {| fs := fs (env st);
                          log := log (env st) ++ [removing_record p];
                          console := console (env st) |} |})
        | None => (Raise script_not_found, st)
        end
    | None => (Raise script_not_found, st)
    end.
Proof.
  destruct st as [o w]. unfold remove_script. run_monad.
  destruct (script_path o) as [p|]; [|reflexivity].
  unfold exists_, unlink.
  destruct (fs_lookup (fs w) p) as [[m c|m]|] eqn:Hp; [| |reflexivity];
    cbn; by rewrite Hp.
Qed.

(** X12 — [prepare_subprocess_command] can be repeated: after a call that
    returned a command, the next call returns the same command and leaves
    the runner and the file system as they were. *)
Theorem prepare_subprocess_command_again (st st1 : state)
    (command : list string) :
  prepare_subprocess_command st = (Ok command, st1) →
  ∃ st2, prepare_subprocess_command st1 = (Ok command, st2) ∧
         self st2 = self st1 ∧
         fs (env st2) = fs (env st1) ∧
         subprocess_command (self st2) = Some command.
Proof.
  rewrite !prepare_command_run.
  destruct (script_path (self st)) as [p|] eqn:Hp; [|done].
  destruct (exists_ (fs (env st)) p) eqn:Hex; [|done].
  intros [= <- <-]. cbn [commanded self env fs script_path
                         set_subprocess_command].
  rewrite Hp, Hex. eexists. split; [reflexivity|]. by repeat split.
Qed.

Lemma prepare_subprocess_command_again_witness :
  let st := Examples.written "Test script" in
  let first_call := prepare_subprocess_command st in
  let command := ["/opt/bcompare/bcompare";
                  "@/var/bc/20240102-120000/beyond_compare_script.txt";
                  "/silent"] in
  fst first_call = Ok command ∧
  ∃ st2, prepare_subprocess_command (snd first_call) = (Ok command, st2) ∧
         self st2 = self (snd first_call) ∧
         fs (env st2) = fs (env (snd first_call)) ∧
         subprocess_command (self st2) = Some command.
Proof.
  intros st first_call command. split; [vm_compute; reflexivity|].
  apply (prepare_subprocess_command_again st).
  apply run_outcome. vm_compute. reflexivity.
Defined.

(** X13 — after a [write_new_script] that ended normally,
    [prepare_subprocess_command] succeeds, and the command it returns and
    stores names the executable, the file just written (with the "@"
    prefix) and "/silent". *)
Theorem write_then_prepare_command {V} `{!PyObject V}
    (kwargs : gmap string V) (st st1 : state) (run_dir : path) :
  current_run_directory (self st) = Some run_dir →
  write_new_script kwargs st = (Ok tt, st1) →
  let command :=
    [fstr_opt_path (executable_path (self st));
     "@" ++ path_str (joinpath run_dir SCRIPT_FILE_NAME); "/silent"] in
  ∃ st2, prepare_subprocess_command st1 = (Ok command, st2) ∧
         subprocess_command (self st2) = Some command ∧
         fs (env st2) = fs (env st1).
Proof.
  intros Hdir Hok command.
  destruct (write_new_script_writes_format kwargs st st1 run_dir Hdir Hok)
    as (mode & data & _ & Hfile & Hslot).
  assert (Hexe : executable_path (self st1) = executable_path (self st)).
  { revert Hok. rewrite (write_new_script_run kwargs st run_dir Hdir).
    destruct (open_w _ _); [|done]. destruct (format _ _); [|done].
    by intros [= <-]. }
  rewrite prepare_command_run, Hslot. unfold exists_. rewrite Hfile.
  exists (commanded st1 (joinpath run_dir SCRIPT_FILE_NAME)).
  unfold command. cbn. unfold invocation. by rewrite Hexe.
Qed.

Lemma write_then_prepare_command_witness :
  let st := Examples.prepared "Test script" in
  let call := write_new_script (∅ : gmap string pyvalue) st in
  let command := ["/opt/bcompare/bcompare";
                  "@/var/bc/20240102-120000/beyond_compare_script.txt";
                  "/silent"] in
  fst call = Ok tt ∧
  ∃ st2, prepare_subprocess_command (snd call) = (Ok command, st2) ∧
         subprocess_command (self st2) = Some command ∧
         fs (env st2) = fs (env (snd call)).
Proof.
  intros st call command. split; [vm_compute; reflexivity|].
  apply (write_then_prepare_command (∅ : gmap string pyvalue) st (snd call)
           Examples.run_dir eq_refl).
  apply run_outcome. vm_compute. reflexivity.
Defined.

(** ** [run_command] and [run_script] *)

(** Every way [run_script] ends once the script is in place. *)
Lemma run_script_outcome (os_exec : list string → filesystem → exec_outcome)
    (print_output : bool) (st : state) (p : path) :
  script_path (self st) = Some p →
  exists_ (fs (env st)) p = true →
  let command := invocation (self st) p in
  let decode_error := Exn UnicodeDecodeError [] in
  run_script os_exec print_output st =
    match os_exec command (fs (env st)) with
    | SpawnFailed e =>
        if isinstance e RuntimeError
        then (Ok tt, finished st p (fs (env st)) [swallowed_record p e] [])
        else (Raise e, finished st p (fs (env st)) [] [])
    | Exited returncode stdout stderr after =>
        if (returncode =? 0)%Z then
          if print_output then
            if utf8_valid stdout then
              if utf8_valid stderr
              then (Ok tt, finished st p after [] [stdout; stderr])
              else (Raise decode_error, finished st p after [] [stdout])
            else (Raise decode_error, finished st p after [] [])
          else (Ok tt, finished st p after [] [])
        else
          if utf8_valid stderr
          then (Ok tt, finished st p after
                         [failure_record p command stderr] [])
          else (Raise decode_error, finished st p after [] [])
    end.
Proof.
  intros Hp Hex command decode_error. destruct st as [o w].
  cbn [self env] in *. unfold run_script, prepare_subprocess_command.
  run_monad. rewrite Hp, Hex. cbn -[isinstance].
  unfold try_except, run_command, decode. run_monad.
  fold (invocation o p). fold command.
  unfold finished, launching, commanded. cbn [self env fs log console].
  assert (Hde : isinstance (Exn UnicodeDecodeError []) RuntimeError = false)
    by reflexivity.
  assert (Hre : ∀ a, isinstance (Exn RuntimeError a) RuntimeError = true)
    by reflexivity.
  assert (Hcons : ∀ (l : list (list byte)) x y,
            ((l ++ [x]) ++ [y] = l ++ [x; y])%list)
    by (intros; by rewrite <- app_assoc).
  destruct (os_exec command (fs w)) as [e|rc out err after].
  - destruct (isinstance e RuntimeError) eqn:Hcatch; cbn -[isinstance];
      rewrite ?Hcatch, ?Hp, ?app_nil_r; reflexivity.
  - destruct (rc =? 0)%Z, print_output, (utf8_valid out) eqn:Hout,
      (utf8_valid err) eqn:Herr;
      cbn -[isinstance];
      rewrite ?Hout, ?Herr; cbn -[isinstance];
      rewrite ?Hde, ?Hre, ?Hp, ?Hcons, ?app_nil_r; reflexivity.
Qed.

Lemma run_script_stops (os_exec : list string → filesystem → exec_outcome)
    (print_output : bool) (st st' : state) (e : exn) :
  prepare_subprocess_command st = (Raise e, st') →
  run_script os_exec print_output st = (Raise e, st').
Proof.
  intros Hprep. unfold run_script.
  cbv [mbind M_bind]. by rewrite Hprep.
Qed.

(** X14 — after a [write_new_script] that ended normally, [remove_script]
    succeeds and deletes the file just written; from then on [run_script]
    raises [FileNotFoundError] without starting the tool, whatever the tool
    would do, and changes nothing. *)
Theorem write_remove_run {V} `{!PyObject V} (kwargs : gmap string V)
    (st st1 : state) (run_dir : path) :
  current_run_directory (self st) = Some run_dir →
  write_new_script kwargs st = (Ok tt, st1) →
  ∃ st2,
    remove_script st1 = (Ok tt, st2) ∧
    fs_lookup (fs (env st2)) (joinpath run_dir SCRIPT_FILE_NAME) = None ∧
    ∀ os_exec print_output,
      run_script os_exec print_output st2 = (Raise script_not_found, st2).
Proof.
  intros Hdir Hok.
  destruct (write_new_script_writes_format kwargs st st1 run_dir Hdir Hok)
    as (mode & data & _ & Hfile & Hslot).
  rewrite remove_run, Hslot, Hfile. eexists. split; [reflexivity|].
  assert (Hgone : fs_lookup
                    (fs_delete (joinpath run_dir SCRIPT_FILE_NAME)
                       (fs (env st1)))
                    (joinpath run_dir SCRIPT_FILE_NAME) = None)
    by apply fs_lookup_delete_eq, joinpath_not_root.
  split; [exact Hgone|]. intros os_exec print_output.
  apply run_script_stops. rewrite prepare_command_run.
  cbn [self env fs]. rewrite Hslot. unfold exists_. cbn [fs].
  by rewrite Hgone.
Qed.

Lemma write_remove_run_witness :
  let st := Examples.prepared "Test script" in
  let call := write_new_script (∅ : gmap string pyvalue) st in
  fst call = Ok tt ∧
  ∃ st2,
    remove_script (snd call) = (Ok tt, st2) ∧
    fs_lookup (fs (env st2)) Examples.script = None ∧
    ∀ os_exec print_output,
      run_script os_exec print_output st2 = (Raise script_not_found, st2).
Proof.
  intros st call. split; [vm_compute; reflexivity|].
  apply (write_remove_run (∅ : gmap string pyvalue) st (snd call)
           Examples.run_dir eq_refl).
  apply run_outcome. vm_compute. reflexivity.
Defined.

(** X15 — without a script (the slot unset, or nothing at the path)
    [run_script] raises [FileNotFoundError] before anything is started:
    the outcome is the same for every tool and print setting, and the
    runner, the file system, the log and the console are unchanged. *)
Theorem run_script_without_script
    (os_exec : list string → filesystem → exec_outcome)
    (print_output : bool) (st : state) :
  script_path (self st) = None ∨
  (∃ p, script_path (self st) = Some p ∧ exists_ (fs (env st)) p = false) →
  run_script os_exec print_output st = (Raise script_not_found, st).
Proof.
  intros Hmiss. apply run_script_stops. rewrite prepare_command_run.
  destruct Hmiss as [-> | (p & -> & ->)]; reflexivity.
Qed.

Lemma run_script_without_script_witness :
  run_script MoreTools.reports true (Examples.fresh "Test script") =
    (Raise script_not_found, Examples.fresh "Test script") ∧
  run_script MoreTools.reports true
    {| self := Examples.runner "Test script" None (Some Examples.script);
       env := Examples.quiet Examples.prepared_fs |} =
    (Raise script_not_found,
     {| self := Examples.runner "Test script" None (Some Examples.script);
        env := Examples.quiet Examples.prepared_fs |}).
Proof.
  split.
  - apply run_script_without_script. left. reflexivity.
  - apply run_script_without_script. right.
    exists Examples.script. split; reflexivity.
Defined.



(** X17 — when the tool exits with status 0 and [print_output] is false,
    [run_script] ends normally whatever bytes the tool wrote: the streams
    are not decoded, nothing is printed and no ERROR record is logged. *)
Theorem run_script_success_quiet
    (os_exec : list string → filesystem → exec_outcome) (st : state)
    (p : path) (stdout stderr : list byte) (after : filesystem) :
  script_path (self st) = Some p →
  exists_ (fs (env st)) p = true →
  os_exec (invocation (self st) p) (fs (env st)) =
    Exited 0 stdout stderr after →
  ∃ st', run_script os_exec false st = (Ok tt, st') ∧
         console (env st') = console (env st) ∧
         log (env st') =
           (log (env st) ++ [command_record p; running_record p])%list ∧
         fs (env st') = after.
Proof.
  intros Hp Hex Hexec.
  rewrite (run_script_outcome os_exec false st p Hp Hex), Hexec.
  cbn. eexists. split; [reflexivity|]. cbn.
  rewrite !app_nil_r, <- app_assoc. by repeat split.
Qed.

Lemma run_script_success_quiet_witness :
  let st := Examples.written "Test script" in
  ∃ st', run_script MoreTools.chatters false st = (Ok tt, st') ∧
         console (env st') = [] ∧
         fs (env st') = fs (env st).
Proof.
  intros st.
  destruct (run_script_success_quiet MoreTools.chatters st Examples.script
              [Byte.xff] [] (fs (env st)))
    as (st' & Hrun & Hconsole & _ & Hfs); try reflexivity.
  exists st'. by repeat split.
Defined.

(** X18 — when the child cannot be started, the exception of
    [create_subprocess_exec] leaves [run_script] unless it is a
    [RuntimeError]: only a [RuntimeError] is caught and logged.  Either
    way the file system is untouched and nothing is printed. *)
Theorem run_script_spawn_failure
    (os_exec : list string → filesystem → exec_outcome)
    (print_output : bool) (st : state) (p : path) (e : exn) :
  script_path (self st) = Some p →
  exists_ (fs (env st)) p = true →
  os_exec (invocation (self st) p) (fs (env st)) = SpawnFailed e →
  ∃ st', run_script os_exec print_output st =
           (if isinstance e RuntimeError then Ok tt else Raise e, st') ∧
         fs (env st') = fs (env st) ∧
         console (env st') = console (env st) ∧
         log (env st') =
           (log (env st) ++ [command_record p; running_record p] ++
            if isinstance e RuntimeError then [swallowed_record p e]
            else [])%list.
Proof.
  intros Hp Hex Hexec.
  rewrite (run_script_outcome os_exec print_output st p Hp Hex), Hexec.
  destruct (isinstance e RuntimeError); eexists; (split; [reflexivity|]);
    cbn; rewrite ?app_nil_r, <- ?app_assoc; by repeat split.
Qed.

Lemma run_script_spawn_failure_witness :
  let st := Examples.written "Test script" in
  ∃ st', run_script MoreTools.missing true st =
           (Raise (Exn FileNotFoundError []), st') ∧
         fs (env st') = fs (env st) ∧
         console (env st') = [] ∧
         log (env st') =
           [command_record Examples.script; running_record Examples.script].
Proof.
  intros st.
  destruct (run_script_spawn_failure MoreTools.missing true st
              Examples.script (Exn FileNotFoundError []))
    as (st' & Hrun & Hfs & Hconsole & Hlog); try reflexivity.
  exists st'. by repeat split.
Defined.



Lemma utf8_valid_ascii (b : list byte) :
  is_ascii_bytes b = true → utf8_valid b = true.
Proof.
  unfold is_ascii_bytes. induction b as [|x b IH]; [done|].
  cbn [forallb utf8_valid]. intros [Hx Hb]%andb_true_iff.
  rewrite Hx. by apply IH.
Qed.

(** X20 — when the tool exits with a non-zero status and its error stream
    is valid UTF-8, as every seven-bit ASCII stream is, [run_script] ends
    normally: the failure is logged at ERROR level with the command and
    the error text, nothing is printed, and the file system is the one the
    tool left. *)
Theorem run_script_failure_swallowed
    (os_exec : list string → filesystem → exec_outcome)
    (print_output : bool) (st : state) (p : path) (returncode : Z)
    (stdout stderr : list byte) (after : filesystem) :
  script_path (self st) = Some p →
  exists_ (fs (env st)) p = true →
  os_exec (invocation (self st) p) (fs (env st)) =
    Exited returncode stdout stderr after →
  returncode ≠ 0%Z →
  is_ascii_bytes stderr = true ∨ utf8_valid stderr = true →
  ∃ st', run_script os_exec print_output st = (Ok tt, st') ∧
         log (env st') =
           (log (env st) ++
            [command_record p; running_record p;
             failure_record p (invocation (self st) p) stderr])%list ∧
         console (env st') = console (env st) ∧
         fs (env st') = after.
Proof.
  intros Hp Hex Hexec Hrc Hvalid. apply Z.eqb_neq in Hrc.
  assert (Hutf : utf8_valid stderr = true)
    by (destruct Hvalid; [by apply utf8_valid_ascii | done]).
  rewrite (run_script_outcome os_exec print_output st p Hp Hex), Hexec, Hrc.
  rewrite Hutf.
  eexists. split; [reflexivity|]. cbn.
  rewrite app_nil_r, <- !app_assoc. by repeat split.
Qed.

Lemma run_script_failure_swallowed_witness :
  let st := Examples.written "Test script" in
  ∃ st', run_script Tool.fails_with_text true st = (Ok tt, st') ∧
         last (log (env st')) =
           Some (failure_record Examples.script
                   (invocation (self st) Examples.script)
                   [Byte.x62; Byte.x6f; Byte.x6f; Byte.x6d]) ∧
         console (env st') = [] ∧
         fs (env st') = fs (env st).
Proof.
  intros st.
  destruct (run_script_failure_swallowed Tool.fails_with_text true st
              Examples.script 1 [] [Byte.x62; Byte.x6f; Byte.x6f; Byte.x6d]
              (fs (env st)))
    as (st' & Hrun & Hlog & Hconsole & Hfs); try reflexivity;
    [lia | left; reflexivity |].
  exists st'. split; [exact Hrun|]. split; [by rewrite Hlog|]. by split.
Defined.

(** ** Malformed templates *)

Lemma do_markup_error {V} `{!PyObject V} (get : string → option V)
    (expand : string → result string) (m : markup) :
  markup_error m = true → ∃ e, do_markup get expand m = Raise e.
Proof.
  induction m as [| |c rest IH|name conv spec ex rest IH]; cbn;
    [done|eauto|..]; intros Herr; destruct (IH Herr) as [e ->].
  - eauto.
  - destruct (output_markup get expand name conv spec ex); cbn; eauto.
Qed.

(** X21 — a template with a syntax error (an unbalanced brace, an
    unclosed field) cannot be written, whatever the keyword arguments:
    [write_new_script] raises, and when the file could be opened it is
    left empty. *)
Theorem write_new_script_malformed_template {V} `{!PyObject V}
    (kwargs : gmap string V) (st : state) (run_dir : path) :
  current_run_directory (self st) = Some run_dir →
  template_malformed (script_data (self st)) = true →
  ∃ e st',
    write_new_script kwargs st = (Raise e, st') ∧
    current_run_directory (self st') = Some run_dir ∧
    ∀ opened, open_w (joinpath run_dir SCRIPT_FILE_NAME) (fs (env st)) =
                Ok opened →
              fs (env st') = opened ∧
              ∃ mode, fs_lookup opened (joinpath run_dir SCRIPT_FILE_NAME) =
                        Some (File mode "").
Proof.
  intros Hdir Hbad. rewrite (write_new_script_run kwargs st run_dir Hdir).
  destruct (open_w _ _) as [opened|e] eqn:Hopen.
  - assert (Hformat : ∃ e, format (script_data (self st)) kwargs = Raise e).
    { unfold format, format_with.
      change (build_string (fun k => kwargs !! k) 2 (script_data (self st)))
        with (do_markup (fun k => kwargs !! k)
                (build_string (fun k => kwargs !! k) 1)
                (MarkupIterator (script_data (self st)))).
      by apply do_markup_error. }
    destruct Hformat as [e ->]. eexists _, _. split; [reflexivity|].
    split; [done|]. intros ? [= <-]. split; [done|].
    by apply open_w_file in Hopen as [? _]; [|apply joinpath_not_root].
  - eexists _, _. split; [reflexivity|]. split; [done|]. by intros.
Qed.

Lemma write_new_script_malformed_template_witness :
  let st := Examples.prepared "title:{name} }" in
  let kwargs : gmap string pyvalue := {[ "name" := PyStr "World" ]} in
  let call := write_new_script kwargs st in
  fst call =
    Raise (value_error "Single '}' encountered in format string") ∧
  current_run_directory (self (snd call)) = Some Examples.run_dir ∧
  fs_lookup (fs (env (snd call))) Examples.script = Some (File 0x1a4 "").
Proof.
  intros st kwargs call. split; [vm_compute; reflexivity|].
  destruct (write_new_script_malformed_template kwargs st Examples.run_dir
              eq_refl eq_refl)
    as (e & st' & Hrun & Hslot & _).
  split.
  - unfold call. by rewrite Hrun.
  - vm_compute. reflexivity.
Defined.

(** ** Prepare, write, run *)



(** ** A directory in the place of the script file *)

(** X23 — with a directory in the place of the script file inside the
    pending run directory, [write_new_script] raises [IsADirectoryError]
    and leaves the script path slot naming that directory.  From there
    [remove_script] passes its existence test, logs, and raises
    [IsADirectoryError] with the file system unchanged, while
    [prepare_subprocess_command] accepts the directory and [run_script]
    starts the tool on it. *)
Theorem script_path_names_directory {V} `{!PyObject V}
    (kwargs : gmap string V) (st : state) (run_dir : path) :
  let p := joinpath run_dir SCRIPT_FILE_NAME in
  current_run_directory (self st) = Some run_dir →
  is_dir (fs (env st)) run_dir = true →
  is_dir (fs (env st)) p = true →
  ∃ st1,
    write_new_script kwargs st = (Raise (Exn IsADirectoryError []), st1) ∧
    script_path (self st1) = Some p ∧
    (∃ st2, remove_script st1 = (Raise (Exn IsADirectoryError []), st2) ∧
            fs (env st2) = fs (env st) ∧
            log (env st2) = (log (env st1) ++ [removing_record p])%list) ∧
    (∃ st2, prepare_subprocess_command st1 =
              (Ok (invocation (self st) p), st2)) ∧
    ∀ os_exec stdout stderr after,
      os_exec (invocation (self st) p) (fs (env st)) =
        Exited 0 stdout stderr after →
      ∃ st2, run_script os_exec false st1 = (Ok tt, st2) ∧
             fs (env st2) = after.
Proof.
  intros p Hslot Hdir Hp. exists (writing st run_dir (fs (env st))).
  assert (Hnode : ∃ m, fs_lookup (fs (env st)) p = Some (Dir m)).
  { unfold is_dir in Hp.
    destruct (fs_lookup (fs (env st)) p) as [[?|m]|]; try done. eauto. }
  destruct Hnode as [m Hnode].
  assert (Hex : exists_ (fs (env st)) p = true).
  { unfold exists_. by rewrite Hnode. }
  split; [|split; [reflexivity|split; [|split]]].
  - rewrite (write_new_script_run kwargs st run_dir Hslot).
    unfold open_w. rewrite parent_joinpath. fold p.
    unfold is_dir in Hdir.
    destruct (fs_lookup (fs (env st)) run_dir) as [[?|?]|]; try done.
    by rewrite Hnode.
  - rewrite remove_run. cbn [writing self env fs log script_path
                              set_script_path].
    fold p. rewrite Hnode. eexists. split; [reflexivity|]. by split.
  - rewrite prepare_command_run. cbn [writing self env fs script_path
                                      set_script_path].
    fold p. rewrite Hex. eexists. reflexivity.
  - intros os_exec stdout stderr after Hexec.
    rewrite (run_script_outcome os_exec false _ p); [|reflexivity|exact Hex].
    cbn zeta. unfold invocation in *.
    cbn [writing self env fs executable_path set_script_path] in *.
    rewrite Hexec. cbn. eexists. split; reflexivity.
Qed.

Lemma script_path_names_directory_witness :
  ∃ st1,
    write_new_script (∅ : gmap string pyvalue) Blocked.st =
      (Raise (Exn IsADirectoryError []), st1) ∧
    script_path (self st1) = Some Examples.script ∧
    (∃ st2, remove_script st1 = (Raise (Exn IsADirectoryError []), st2) ∧
            fs (env st2) = Blocked.blocked_fs ∧
            log (env st2) =
              (log (env st1) ++ [removing_record Examples.script])%list) ∧
    (∃ st2, prepare_subprocess_command st1 =
              (Ok ["/opt/bcompare/bcompare";
                   "@/var/bc/20240102-120000/beyond_compare_script.txt";
                   "/silent"], st2)) ∧
    ∀ os_exec stdout stderr after,
      os_exec (invocation (self Blocked.st) Examples.script)
              Blocked.blocked_fs = Exited 0 stdout stderr after →
      ∃ st2, run_script os_exec false st1 = (Ok tt, st2) ∧
             fs (env st2) = after.
Proof.
  apply (script_path_names_directory (∅ : gmap string pyvalue) Blocked.st
           Examples.run_dir eq_refl).
  - vm_compute. reflexivity.
  - vm_compute. reflexivity.
Defined.
